(** * Basic-Agents: the three example scripts, embedded and verified

    The repository holds three independent Python scripts:
    - [patterns/1-Introduction/1-basic.py]         (module [basic])
    - [patterns/1-Introduction/3-tools.py]         (module [tools])
    - [patterns/2-workflow-patterns/2-routing.py]  (module [routing])

    Every script is glue around external services (the chat-completion
    endpoint, a weather endpoint, the process environment, stdout, the
    logger).  A script is embedded as a program over the external calls it
    makes: a finite tree whose nodes are the calls, in program order, and
    whose leaves are the returned value or the raised exception.  A
    program is run against a world, which answers each call; a mocked
    call of a test is a world with a fixed answer. *)

From Stdlib Require Import ZArith List Bool Ascii String DecimalString.
From Stdlib Require Import PrimFloat.
From stdpp Require Import base option list strings gmap.

Set Implicit Arguments.
Unset Strict Implicit.
Set Default Proof Using "Type".

Set Warnings "-register-all,-inexact-float".

(** ** Python values and exceptions *)

(** The exceptions the scripts can end with.  [APIError] and
    [RequestException] are raised by the external calls; the others by
    the interpreter or the standard library. *)
Inductive exn : Type :=
| TypeError
| KeyError (key : string)
| IndexError
| AttributeError
| JSONDecodeError
| OpenAIError
| APIError (what : string)
| RequestException (what : string).

(** What [json.loads] produces: [None], [bool], [int], [float], [str],
    [list] and [dict] (insertion-ordered, keys are strings and distinct). *)
Inductive value : Type :=
| VNone
| VBool (b : bool)
| VInt (n : Z)
| VFloat (f : float)
| VStr (s : string)
| VList (l : list value)
| VDict (d : list (string * value)).

(** [str.join] *)
Definition join (sep : string) (l : list string) : string := String.concat sep l.

(** [str(n)] for an [int] *)
Definition int_str (n : Z) : string := NilZero.string_of_int (Z.to_int n).

(** [d.get(k)] on the items of a dict *)
Fixpoint dict_get (k : string) (d : list (string * value)) : option value :=
  match d with
  | [] => None
  | (k', v) :: d' => if String.eqb k k' then Some v else dict_get k d'
  end.

(** The binding of a call that unpacks [args] as keyword arguments, for a
    function of two parameters [p1] and [p2] without defaults: [args] must
    be a mapping that has exactly the keys [p1] and [p2]. *)
Definition keywords2 (p1 p2 : string) (args : value) : exn + value * value :=
  match args with
  | VDict d =>
      if forallb (fun kv => String.eqb (fst kv) p1 || String.eqb (fst kv) p2) d then
        match dict_get p1 d, dict_get p2 d with
        | Some a, Some b => inr (a, b)
        | _, _ => inl TypeError
        end
      else inl TypeError
  | _ => inl TypeError
  end.

(** [d[k]]: subscription by a string key *)
Definition getitem (d : value) (k : string) : exn + value :=
  match d with
  | VDict kv =>
      match dict_get k kv with
      | Some v => inr v
      | None => inl (KeyError k)
      end
  | _ => inl TypeError
  end.

(** The parts of the Python runtime and of the libraries that the scripts
    call as pure functions, and whose text is not in the repository. *)
Class PythonRuntime : Type := {
  (** [float.__repr__], which is also [str] and the empty format of a float *)
  float_repr : float -> string;
  (** [repr] of a [str] *)
  str_repr : string -> string;
  (** [json.encoder.encode_basestring_ascii]: the quoted, escaped string *)
  encode_basestring_ascii : string -> string;
  (** [json.loads] *)
  json_loads : string -> exn + value;
}.

Section python.
Context {runtime : PythonRuntime}.

(** [repr(v)] *)
Fixpoint py_repr (v : value) : string :=
  match v with
  | VNone => "None"
  | VBool true => "True"
  | VBool false => "False"
  | VInt n => int_str n
  | VFloat f => float_repr f
  | VStr s => str_repr s
  | VList l => "[" +:+ join ", " (List.map py_repr l) +:+ "]"
  | VDict d =>
      "{" +:+ join ", " (List.map (fun kv => str_repr (fst kv) +:+ ": " +:+ py_repr (snd kv)) d) +:+ "}"
  end.

(** [str(v)], which is what a replacement field [{v}] of an f-string
    inserts *)
Definition py_str (v : value) : string :=
  match v with
  | VStr s => s
  | _ => py_repr v
  end.

(** [json.encoder.floatstr] with [allow_nan=True] *)
Definition floatstr (f : float) : string :=
  if PrimFloat.is_nan f then "NaN"
  else if PrimFloat.eqb f infinity then "Infinity"
  else if PrimFloat.eqb f neg_infinity then "-Infinity"
  else float_repr f.

(** [json.dumps(v)] with the default arguments: separators [", "] and
    [": "], [ensure_ascii=True], no indentation. *)
Fixpoint json_dumps (v : value) : string :=
  match v with
  | VNone => "null"
  | VBool true => "true"
  | VBool false => "false"
  | VInt n => int_str n
  | VFloat f => floatstr f
  | VStr s => encode_basestring_ascii s
  | VList l => "[" +:+ join ", " (List.map json_dumps l) +:+ "]"
  | VDict d =>
      "{" +:+ join ", "
        (List.map (fun kv => encode_basestring_ascii (fst kv) +:+ ": " +:+ json_dumps (snd kv)) d)
      +:+ "}"
  end.
End python.

(** ** Programs over external calls *)

Section prog.
(** [E X] is the type of the external calls answered by an [X]. *)
Variable E : Type -> Type.

Inductive prog (A : Type) : Type :=
| Ret (a : A)
| Raise (e : exn)
| Vis (X : Type) (call : E X) (k : X -> prog A).

Arguments Ret {A} a.
Arguments Raise {A} e.
Arguments Vis {A X} call k.

Fixpoint bind {A B : Type} (p : prog A) (f : A -> prog B) : prog B :=
  match p with
  | Ret a => f a
  | Raise e => Raise e
  | Vis call k => Vis call (fun x => bind (k x) f)
  end.

(** A call that always answers *)
Definition trigger {X : Type} (call : E X) : prog X := Vis call (fun x => Ret x).

(** A Python expression that evaluates or raises *)
Definition lift {A : Type} (r : exn + A) : prog A :=
  match r with
  | inl e => Raise e
  | inr a => Ret a
  end.

(** A call that answers or raises *)
Definition invoke {X : Type} (call : E (exn + X)) : prog X := Vis call (fun r => lift r).

(** One call together with its answer, as it is observed in a run *)
Inductive observed : Type :=
| Obs (X : Type) (call : E X) (answer : X).

Definition trace : Type := list observed.

Section run.
(** A world has a state of type [W] and answers every call. *)
Variable W : Type.
Variable respond : forall X : Type, E X -> W -> X * W.

Fixpoint run {A : Type} (p : prog A) (w : W) : trace * W * (exn + A) :=
  match p with
  | Ret a => ([], w, inr a)
  | Raise e => ([], w, inl e)
  | Vis call k =>
      let '(x, w1) := respond call w in
      let '(t, w2, r) := run (k x) w1 in
      (Obs call x :: t, w2, r)
  end.

Definition trace_of {A : Type} (p : prog A) (w : W) : trace := fst (fst (run p w)).
Definition result_of {A : Type} (p : prog A) (w : W) : exn + A := snd (run p w).

(** What the world answers to one call made in state [w], and the state it
    is in afterwards. *)
Definition answer {X : Type} (call : E X) (w : W) : X := fst (respond call w).
Definition after {X : Type} (call : E X) (w : W) : W := snd (respond call w).
End run.

(** [for x in l: body], threading the variables the body assigns *)
Fixpoint for_in {A V : Type} (l : list A) (body : V -> A -> prog V) (s : V) : prog V :=
  match l with
  | [] => Ret s
  | x :: l' => bind (body s x) (for_in l' body)
  end.
End prog.

Arguments Ret {E A} a.
Arguments Raise {E A} e.
Arguments Vis {E A X} call k.
Arguments Obs {E X} call answer.
Arguments lift {E A} r.
Arguments trigger {E X} call.
Arguments invoke {E X} call.

Declare Scope prog_scope.
Delimit Scope prog_scope with prog.
Notation "x <- c1 ;; c2" := (bind c1 (fun x => c2))
(at level 100, c1 at next level, right associativity) : prog_scope.
Notation "c1 ;; c2" := (bind c1 (fun _ => c2))
(at level 100, right associativity) : prog_scope.

Local Open Scope prog_scope.

(** [l[0]] *)
Definition first_item {A : Type} (l : list A) : exn + A :=
  match l with
  | x :: _ => inr x
  | [] => inl IndexError
  end.

(** [x.attr] where [x] may be [None] *)
Definition attr_of {A B : Type} (x : option A) (attr : A -> B) : exn + B :=
  match x with
  | Some a => inr (attr a)
  | None => inl AttributeError
  end.

(** The line feed that [print] writes after its text *)
Definition LF : string := String (ascii_of_nat 10) EmptyString.

(** ** The objects of the chat-completion client that the scripts touch *)

Module openai.

(** The client; what the scripts configure of it is the key. *)
Record OpenAI : Type := { api_key : string }.

Record Function : Type := { name : string; arguments : string }.

Record ChatCompletionMessageToolCall : Type := { id : string; function : Function }.

(** The assistant's message of a completion (the fields the scripts read) *)
Record ChatCompletionMessage : Type := {
  content : option string;
  tool_calls : option (list ChatCompletionMessageToolCall);
}.

Record Choice : Type := { message : ChatCompletionMessage }.

Record ChatCompletion : Type := { choices : list Choice }.

(** An element of the [messages] argument: a dict literal with string
    values, or a message object of an earlier completion, passed as is. *)
Inductive message_param : Type :=
| MDict (d : list (string * string))
| MObject (m : ChatCompletionMessage).

(** The arguments of [create] and of [parse]; [tools] is [None] where the
    script does not pass it. *)
Record request : Type := {
  model : string;
  messages : list message_param;
  tools : option value;
}.

(** The result of [client.beta.chat.completions.parse] for a response
    format whose instances have type [T]; [parsed] is [None] when the model
    refused. *)
Module Parsed.
Record ChatCompletionMessage (T : Type) : Type := { parsed : option T }.
Record Choice (T : Type) : Type := { message : ChatCompletionMessage T }.
Record ChatCompletion (T : Type) : Type := { choices : list (Choice T) }.
End Parsed.

(** [OpenAI(api_key=key)]: without a key the constructor reads
    [OPENAI_API_KEY] itself and raises when it is not set. *)
Definition new {E : Type -> Type} (getenv : string -> prog E (option string))
    (key : option string) : prog E OpenAI :=
  match key with
  | Some k => Ret {| api_key := k |}
  | None =>
      k' <- getenv "OPENAI_API_KEY" ;;
      match k' with
      | Some k => Ret {| api_key := k |}
      | None => Raise OpenAIError
      end
  end.

End openai.

(** ** patterns/1-Introduction/1-basic.py *)

Module basic.

Inductive call : Type -> Type :=
| load_dotenv : call bool
| os_getenv (key : string) : call (option string)
| print (text : string) : call unit
| chat_completions_create (client : openai.OpenAI) (req : openai.request)
    : call (exn + openai.ChatCompletion).

(** [print(x)] for an [Optional[str]]: the text is [str(x)] *)
Definition print_optional (x : option string) : prog call unit :=
  trigger (print (default "None" x)).

Definition request : openai.request :=
  {| openai.model := "gpt-4o";
     openai.messages :=
       [ openai.MDict [("role", "system"); ("content", "You're a helpful assistant")];
         openai.MDict [("role", "user");
                       ("content", "Write a limerick about the Python Programming.")] ];
     openai.tools := None |}.

(** The module body, top to bottom *)
Definition script : prog call unit :=
  trigger load_dotenv ;;
  openai_api_key <- trigger (os_getenv "OPENAI_API_KEY") ;;
  print_optional openai_api_key ;;
  key <- trigger (os_getenv "OPENAI_API_KEY") ;;
  client <- openai.new (fun k => trigger (os_getenv k)) key ;;
  completion <- invoke (chat_completions_create client request) ;;
  choice <- lift (first_item (openai.choices completion)) ;;
  let response := openai.content (openai.message choice) in
  print_optional response ;;
  Ret tt.

(** What a run writes to standard output: the text of each [print], each
    followed by a line feed. *)
Fixpoint stdout (t : trace call) : string :=
  match t with
  | [] => ""
  | Obs (print text) _ :: t' => text +:+ LF +:+ stdout t'
  | _ :: t' => stdout t'
  end.

(** The process around the script: the variables that the [.env] file
    defines (none when there is no file) and the completion service.  The
    state of a run is the environment, [os.environ]. *)
Record process : Type := {
  dotenv_file : gmap string string;
  service : openai.OpenAI -> openai.request -> exn + openai.ChatCompletion;
}.

(** [load_dotenv()] sets the variables of the file that are not yet set
    ([override=False]), and tells whether the file defines any. *)
Definition dotenv_apply (file : gmap string string) (environ : gmap string string)
    : gmap string string :=
  environ ∪ file.

Definition respond (p : process) (X : Type) (c : call X)
    : gmap string string -> X * gmap string string :=
  match c in call X return gmap string string -> X * gmap string string with
  | load_dotenv =>
      fun environ => (bool_decide (dotenv_file p <> ∅), dotenv_apply (dotenv_file p) environ)
  | os_getenv key => fun environ => (environ !! key, environ)
  | print _ => fun environ => (tt, environ)
  | chat_completions_create client req => fun environ => (service p client req, environ)
  end.

(** The standard output of a run of the script in the process [p], started
    with the environment [environ] *)
Definition output (p : process) (environ : gmap string string) : string :=
  stdout (trace_of (respond p) script environ).

End basic.

(** ** patterns/1-Introduction/3-tools.py *)

Module tools.

(** A [requests.Response]; [json] is what [response.json()] gives. *)
Record Response : Type := { json : exn + value }.

Record WeatherResponse : Type := { temperature : float; response : string }.

Inductive call : Type -> Type :=
| os_getenv (key : string) : call (option string)
| requests_get (url : string) : call (exn + Response)
| chat_completions_create (client : openai.OpenAI) (req : openai.request)
    : call (exn + openai.ChatCompletion)
| chat_completions_parse (client : openai.OpenAI) (req : openai.request)
    : call (exn + openai.Parsed.ChatCompletion WeatherResponse).

Definition tools : value :=
  VList [
    VDict [
      ("type", VStr "function");
      ("function", VDict [
        ("name", VStr "get_weather");
        ("description", VStr "Get current temperature for a given location.");
        ("parameters", VDict [
          ("type", VStr "object");
          ("properties", VDict [
            ("latitude", VDict [("type", VStr "number")]);
            ("longitude", VDict [("type", VStr "number")]) ]);
          ("required", VList [VStr "latitude"; VStr "longitude"]);
          ("additionalProperties", VBool false) ]);
        ("strict", VBool true) ]) ] ].

Definition system_prompt : string := "You are a helpful weather assitant.".

(** [messages] as the module first binds it *)
Definition messages : list openai.message_param :=
  [ openai.MDict [("role", "system"); ("content", system_prompt)];
    openai.MDict [("role", "user"); ("content", "What's the weather like in Paris today?")] ].

Section functions.
Context {runtime : PythonRuntime}.

Definition get_weather (latitude longitude : value) : prog call value :=
  response <- invoke (requests_get
    ("https://api.open-meteo.com/v1/forecast?latitude=" +:+ py_str latitude
     +:+ "&longitude=" +:+ py_str longitude
     +:+ "&current=temperature_2m,wind_speed_10m&hourly=temperature_2m,relative_humidity_2m,wind_speed_10m")) ;;
  data <- lift (json response) ;;
  lift (getitem data "current").

(** A name that is not ["get_weather"] falls off the end of the function,
    which returns [None]. *)
Definition call_function (name : string) (args : value) : prog call value :=
  if String.eqb name "get_weather" then
    kw <- lift (keywords2 "latitude" "longitude" args) ;;
    get_weather (fst kw) (snd kw)
  else Ret VNone.

(** The dict that the loop appends for a tool call *)
Definition tool_message (tool_call : openai.ChatCompletionMessageToolCall) (result : value)
    : openai.message_param :=
  openai.MDict [ ("role", "tool");
                 ("tool_call_id", openai.id tool_call);
                 ("content", json_dumps result) ].

(** The body of [for tool_call in completion.choices[0].message.tool_calls];
    the list [messages] that it appends to is threaded through. *)
Definition loop_body (completion : openai.ChatCompletion)
    (messages : list openai.message_param)
    (tool_call : openai.ChatCompletionMessageToolCall)
    : prog call (list openai.message_param) :=
  let name := openai.name (openai.function tool_call) in
  args <- lift (json_loads (openai.arguments (openai.function tool_call))) ;;
  choice <- lift (first_item (openai.choices completion)) ;;
  let messages := messages ++ [openai.MObject (openai.message choice)] in
  result <- call_function name args ;;
  Ret (messages ++ [tool_message tool_call result]).

(** The module body, top to bottom; [completion.model_dump()] and the last
    two expression statements only read. *)
Definition script : prog call unit :=
  key <- trigger (os_getenv "OPENAI_API_KEY") ;;
  client <- openai.new (fun k => trigger (os_getenv k)) key ;;
  completion <- invoke (chat_completions_create client
    {| openai.model := "gpt-4o"; openai.messages := messages; openai.tools := Some tools |}) ;;
  choice <- lift (first_item (openai.choices completion)) ;;
  tool_calls <- lift (match openai.tool_calls (openai.message choice) with
                      | Some l => inr l
                      | None => inl TypeError
                      end) ;;
  messages <- for_in tool_calls (loop_body completion) messages ;;
  completion_2 <- invoke (chat_completions_parse client
    {| openai.model := "gpt-4o"; openai.messages := messages; openai.tools := Some tools |}) ;;
  choice_2 <- lift (first_item (openai.Parsed.choices completion_2)) ;;
  let final_response := openai.Parsed.parsed (openai.Parsed.message choice_2) in
  lift (attr_of final_response temperature) ;;
  lift (attr_of final_response response) ;;
  Ret tt.

End functions.
End tools.

(** ** patterns/2-workflow-patterns/2-routing.py *)

Module routing.

(** [Literal["new_event", "modify_event", "other"]] *)
Inductive request_type_literal : Type := new_event | modify_event | other.

(** The [str] that a value of the literal type is *)
Definition literal_str (t : request_type_literal) : string :=
  match t with
  | new_event => "new_event"
  | modify_event => "modify_event"
  | other => "other"
  end.

Record CalendarRequestType : Type := {
  request_type : request_type_literal;
  confidence_score : float;
  description : string;
}.

Record NewEventDetails : Type := {
  name : string;
  date : string;
  duration_minutes : string;
  participants : list string;
}.

Record Change : Type := { field : string; new_value : string }.

Record ModifyEventDetails : Type := {
  event_identifier : string;
  changes : list Change;
  participants_to_add : list string;
  participants_to_remove : list string;
}.

Record CalendarResponse : Type := {
  success : bool;
  message : string;
  calendar_link : option string;
}.

(** The classes that are passed as [response_format], and the type of the
    instances of each *)
Inductive model_class : Type :=
| CalendarRequestType_class
| NewEventDetails_class
| ModifyEventDetails_class.

Definition instance (c : model_class) : Type :=
  match c with
  | CalendarRequestType_class => CalendarRequestType
  | NewEventDetails_class => NewEventDetails
  | ModifyEventDetails_class => ModifyEventDetails
  end.

(** [BaseModel.model_dump_json(indent=2)], whose text is not in the
    repository *)
Class Pydantic : Type := {
  model_dump_json : forall c : model_class, instance c -> string;
}.
Arguments model_dump_json {_} c _.

Inductive call : Type -> Type :=
| logging_basicConfig (level format datefmt : string) : call unit
| os_getenv (key : string) : call (option string)
| logger_info (msg : string) : call unit
| chat_completions_parse (client : openai.OpenAI) (req : openai.request)
    (response_format : model_class)
    : call (exn + openai.Parsed.ChatCompletion (instance response_format)).

Definition model : string := "gpt-4o".

(** The [messages] of the three calls: a fixed instruction, then the text *)
Definition prompt (instruction text : string) : openai.request :=
  {| openai.model := model;
     openai.messages :=
       [ openai.MDict [("role", "system"); ("content", instruction)];
         openai.MDict [("role", "user"); ("content", text)] ];
     openai.tools := None |}.

Section functions.
Context {runtime : PythonRuntime} {pydantic : Pydantic}.
(** The global [client], which the functions read when they are called; the
    attribute of a [parsed] that is [None] raises. *)
Variable client : openai.OpenAI.

Definition route_calendar_request (user_input : string) : prog call CalendarRequestType :=
  trigger (logger_info "Routing Calendar Request") ;;
  completion <- invoke (chat_completions_parse client
    (prompt "Determine if this is a request to create a new calendar event or modify an existing one."
            user_input)
    CalendarRequestType_class) ;;
  choice <- lift (first_item (openai.Parsed.choices completion)) ;;
  match openai.Parsed.parsed (openai.Parsed.message choice) with
  | None => Raise AttributeError
  | Some result =>
      trigger (logger_info ("Request routed as: " +:+ literal_str (request_type result)
                            +:+ " with confidence: "
                            +:+ float_repr (confidence_score result))) ;;
      Ret result
  end.

Definition handle_new_event (description : string) : prog call CalendarResponse :=
  trigger (logger_info "Processing new event request") ;;
  completion <- invoke (chat_completions_parse client
    (prompt "Extract details for creating a new calendar event." description)
    NewEventDetails_class) ;;
  choice <- lift (first_item (openai.Parsed.choices completion)) ;;
  match openai.Parsed.parsed (openai.Parsed.message choice) with
  | None => Raise AttributeError
  | Some details =>
      trigger (logger_info ("New event: "
                            +:+ model_dump_json NewEventDetails_class details)) ;;
      Ret {| success := true;
             message := "Created new event '" +:+ name details
                        +:+ "' for " +:+ date details
                        +:+ " with " +:+ join ", " (participants details);
             calendar_link := Some ("calendar://new?event=" +:+ name details) |}
  end.

Definition handle_modify_event (description : string) : prog call CalendarResponse :=
  trigger (logger_info "Processing event modification request") ;;
  completion <- invoke (chat_completions_parse client
    (prompt "Extract details for modifying an existing calendar event" description)
    ModifyEventDetails_class) ;;
  choice <- lift (first_item (openai.Parsed.choices completion)) ;;
  match openai.Parsed.parsed (openai.Parsed.message choice) with
  | None => Raise AttributeError
  | Some details =>
      trigger (logger_info ("Modified event: "
                            +:+ model_dump_json ModifyEventDetails_class details)) ;;
      Ret {| success := true;
             message := "Modified event '" +:+ event_identifier details
                        +:+ "' with the requested change.";
             calendar_link := Some ("calendar://modify?event="
                                    +:+ event_identifier details) |}
  end.

End functions.

(** The module body, top to bottom: it configures the logger, builds the
    client and defines the classes and the three functions; it calls none
    of the functions. *)
Definition script : prog call openai.OpenAI :=
  trigger (logging_basicConfig "INFO" "%(asctime)s - %(levelname)s - %(message)s"
                               "%Y-%m-%d %H:%M:%S") ;;
  key <- trigger (os_getenv "OPENAI_API_KEY") ;;
  openai.new (fun k => trigger (os_getenv k)) key.

End routing.

(** ** Observations on the runs of the routing functions *)

(** A completion of [parse] whose first choice holds the instance [x] *)
Definition parsed_completion {T : Type} (x : T) (rest : list (openai.Parsed.Choice T))
    : openai.Parsed.ChatCompletion T :=
  {| openai.Parsed.choices :=
       {| openai.Parsed.message := {| openai.Parsed.parsed := Some x |} |} :: rest |}.

Section routing_observations.
Import routing.
Variable client : openai.OpenAI.
Variable W : Type.
Variable respond : forall X : Type, call X -> W -> X * W.

(** What the world answers to the one structured-output call of each
    function, which the function makes after its first log line *)
Definition classification (w : W) (user_input : string)
    : exn + openai.Parsed.ChatCompletion CalendarRequestType :=
  answer respond
    (chat_completions_parse client
       (prompt "Determine if this is a request to create a new calendar event or modify an existing one."
               user_input)
       CalendarRequestType_class)
    (after respond (logger_info "Routing Calendar Request") w).

Definition new_event_extraction (w : W) (description : string)
    : exn + openai.Parsed.ChatCompletion NewEventDetails :=
  answer respond
    (chat_completions_parse client
       (prompt "Extract details for creating a new calendar event." description)
       NewEventDetails_class)
    (after respond (logger_info "Processing new event request") w).

Definition modify_event_extraction (w : W) (description : string)
    : exn + openai.Parsed.ChatCompletion ModifyEventDetails :=
  answer respond
    (chat_completions_parse client
       (prompt "Extract details for modifying an existing calendar event" description)
       ModifyEventDetails_class)
    (after respond (logger_info "Processing event modification request") w).

(** What a function reads from the answer, [completion.choices[0].message.parsed],
    or the exception it ends with when the call raised, the completion has
    no choice, or [parsed] is [None] and its attribute is read *)
Definition first_parsed {T : Type} (a : exn + openai.Parsed.ChatCompletion T) : exn + T :=
  match a with
  | inl e => inl e
  | inr completion =>
      match first_item (openai.Parsed.choices completion) with
      | inl e => inl e
      | inr choice =>
          match openai.Parsed.parsed (openai.Parsed.message choice) with
          | Some x => inr x
          | None => inl AttributeError
          end
      end
  end.

(** A run with trace [t] invoked the function [f] when a run of [f], from
    some state and on some argument, is a segment of [t]. *)
Definition invoked {A : Type} (f : string -> prog call A) (t : trace call) : Prop :=
  exists (argument : string) (w : W) (before later : trace call),
    t = before ++ trace_of respond (f argument) w ++ later.

(** Whether an observed call is the log line [msg] *)
Definition is_log (msg : string) (o : observed call) : bool :=
  match o with
  | Obs (logger_info m) _ => String.eqb m msg
  | _ => false
  end.

(** Whether an observed call is a log line or a call of the completion
    client (the only services the handlers have a call for) *)
Definition is_log_or_parse (o : observed call) : bool :=
  match o with
  | Obs (logger_info _) _ => true
  | Obs (chat_completions_parse _ _ _) _ => true
  | _ => false
  end.
End routing_observations.

(** ** Observations on the runs of the tool loop *)

Section tools_observations.
Import tools.
Context {runtime : PythonRuntime}.
Variable W : Type.
Variable respond : forall X : Type, call X -> W -> X * W.

(** What [call_function] returns for each tool call of the loop, in order,
    from the state [w]; or the first exception, of [json.loads] or of
    [call_function]. *)
Fixpoint tool_results (tool_calls : list openai.ChatCompletionMessageToolCall) (w : W)
    : exn + list value :=
  match tool_calls with
  | [] => inr []
  | tool_call :: tool_calls' =>
      match json_loads (openai.arguments (openai.function tool_call)) with
      | inl e => inl e
      | inr args =>
          match run respond
                  (call_function (openai.name (openai.function tool_call)) args) w with
          | (_, w1, inr result) =>
              match tool_results tool_calls' w1 with
              | inr results => inr (result :: results)
              | inl e => inl e
              end
          | (_, _, inl e) => inl e
          end
      end
  end.

(** Whether an element of [messages] is a message object (the assistant's
    message) rather than a dict *)
Definition is_object (m : openai.message_param) : bool :=
  match m with
  | openai.MObject _ => true
  | openai.MDict _ => false
  end.
End tools_observations.

(** ** Worlds with fixed answers, for the tests *)

(** The double quote *)
Definition DQ : string := String (ascii_of_nat 34) EmptyString.

(** The argument string of a tool call for Paris, a JSON object with the
    two coordinates *)
Definition paris_arguments : string :=
  "{" +:+ DQ +:+ "latitude" +:+ DQ +:+ ": 48.85, "
      +:+ DQ +:+ "longitude" +:+ DQ +:+ ": 2.35}".

(** A runtime that is right on the values of the tests: it prints the two
    coordinates, the confidence and the temperature, quotes strings that
    need no escape and decodes the two argument strings. *)
Definition test_runtime : PythonRuntime :=
  {| float_repr f :=
       if PrimFloat.eqb f 48.85%float then "48.85"
       else if PrimFloat.eqb f 2.35%float then "2.35"
       else if PrimFloat.eqb f 0.9%float then "0.9"
       else "11.4";
     str_repr s := "'" +:+ s +:+ "'";
     encode_basestring_ascii s := DQ +:+ s +:+ DQ;
     json_loads s :=
       if String.eqb s paris_arguments
       then inr (VDict [("latitude", VFloat 48.85%float); ("longitude", VFloat 2.35%float)])
       else if String.eqb s "{}" then inr (VDict [])
       else inl JSONDecodeError |}.

Module routing_mock.
Import routing.

Definition test_pydantic : Pydantic :=
  {| model_dump_json c :=
       match c with
       | CalendarRequestType_class => fun x => "{...}"
       | NewEventDetails_class => fun x => "{...}"
       | ModifyEventDetails_class => fun x => "{...}"
       end |}.

(** The answers of the mocked client, one for each response format *)
Record mock : Type := {
  classified : exn + openai.Parsed.ChatCompletion CalendarRequestType;
  new_details : exn + openai.Parsed.ChatCompletion NewEventDetails;
  modify_details : exn + openai.Parsed.ChatCompletion ModifyEventDetails;
}.

Definition respond (m : mock) (X : Type) (c : call X) (w : unit) : X * unit :=
  match c in call X return X * unit with
  | logging_basicConfig _ _ _ => (tt, w)
  | os_getenv _ => (Some "sk-test", w)
  | logger_info _ => (tt, w)
  | chat_completions_parse _ _ response_format =>
      (match response_format
         return exn + openai.Parsed.ChatCompletion (instance response_format) with
       | CalendarRequestType_class => classified m
       | NewEventDetails_class => new_details m
       | ModifyEventDetails_class => modify_details m
       end, w)
  end.

Definition client : openai.OpenAI := {| openai.api_key := "sk-test" |}.

Definition team_sync : NewEventDetails :=
  {| name := "Team Sync"; date := "2025-01-10T10:00"; duration_minutes := "30";
     participants := ["Alice"; "Bob"] |}.

Definition move_team_sync : ModifyEventDetails :=
  {| event_identifier := "Team Sync";
     changes := [{| field := "date"; new_value := "2025-01-11T10:00" |}];
     participants_to_add := ["Carol"];
     participants_to_remove := [] |}.

Definition rename_team_sync : ModifyEventDetails :=
  {| event_identifier := "Team Sync";
     changes := [{| field := "name"; new_value := "Weekly Sync" |}];
     participants_to_add := [];
     participants_to_remove := ["Bob"] |}.

(** The mocked client of the dispatch test: the request is classified as
    [t], and both extractions succeed. *)
Definition classifies_as (t : request_type_literal) (modification : ModifyEventDetails) : mock :=
  {| classified := inr (parsed_completion
       {| request_type := t; confidence_score := 0.9%float;
          description := "Team sync with Alice and Bob" |} []);
     new_details := inr (parsed_completion team_sync []);
     modify_details := inr (parsed_completion modification []) |}.

End routing_mock.

Module basic_mock.

Definition limerick : string := "A snake that could code with great flair".

Definition process : basic.process :=
  {| basic.dotenv_file := {[ "OPENAI_API_KEY" := "sk-from-dotenv" ]};
     basic.service := fun _ _ =>
       inr {| openai.choices :=
                [ {| openai.message :=
                       {| openai.content := Some limerick; openai.tool_calls := None |} |} ] |} |}.

End basic_mock.

Module tools_mock.
Import tools.

Definition weather : value :=
  VDict [ ("latitude", VFloat 48.85%float);
          ("current", VDict [ ("time", VStr "2025-01-10T10:00");
                              ("interval", VInt 900);
                              ("temperature_2m", VFloat 11.4%float) ]) ].

Definition paris_call : openai.ChatCompletionMessageToolCall :=
  {| openai.id := "call_1";
     openai.function := {| openai.name := "get_weather"; openai.arguments := paris_arguments |} |}.

Definition time_call : openai.ChatCompletionMessageToolCall :=
  {| openai.id := "call_2";
     openai.function := {| openai.name := "get_time"; openai.arguments := "{}" |} |}.

Definition assistant (tool_calls : list openai.ChatCompletionMessageToolCall)
    : openai.ChatCompletionMessage :=
  {| openai.content := None; openai.tool_calls := Some tool_calls |}.

Definition completion (tool_calls : list openai.ChatCompletionMessageToolCall)
    : openai.ChatCompletion :=
  {| openai.choices := [ {| openai.message := assistant tool_calls |} ] |}.

(** The mocked services: the model asks for [tool_calls], the weather
    endpoint answers [weather]; the state counts the weather requests. *)
Definition respond (tool_calls : list openai.ChatCompletionMessageToolCall)
    (X : Type) (c : call X) (w : nat) : X * nat :=
  match c in call X return X * nat with
  | os_getenv _ => (Some "sk-test", w)
  | requests_get _ => (inr {| json := inr weather |}, S w)
  | chat_completions_create _ _ => (inr (completion tool_calls), w)
  | chat_completions_parse _ _ =>
      (inr (parsed_completion
              {| temperature := 11.4%float; response := "It is 11.4 degrees in Paris." |} []),
       w)
  end.

End tools_mock.

(** ** Further observations and test values *)

Section tools_calls.
Import tools.

(** Whether an observed call is a request to the weather endpoint *)
Definition is_request (o : observed call) : bool :=
  match o with
  | Obs (requests_get _) _ => true
  | _ => false
  end.

(** Whether a tool call names the one function that [call_function] knows *)
Definition names_get_weather (tool_call : openai.ChatCompletionMessageToolCall) : bool :=
  String.eqb (openai.name (openai.function tool_call)) "get_weather".

(** The URL that [get_weather] requests *)
Definition forecast_url {runtime : PythonRuntime} (latitude longitude : value) : string :=
  "https://api.open-meteo.com/v1/forecast?latitude=" +:+ py_str latitude
  +:+ "&longitude=" +:+ py_str longitude
  +:+ "&current=temperature_2m,wind_speed_10m&hourly=temperature_2m,relative_humidity_2m,wind_speed_10m".

(** The two requests to the model that the script makes, the second with
    the list [messages] as the loop left it *)
Definition first_request : openai.request :=
  {| openai.model := "gpt-4o"; openai.messages := messages; openai.tools := Some tools |}.

Definition second_request (messages : list openai.message_param) : openai.request :=
  {| openai.model := "gpt-4o"; openai.messages := messages; openai.tools := Some tools |}.
End tools_calls.

Module tools_mock_more.
Import tools tools_mock.


(** The mocked services without a key in the environment *)
Definition respond_without_key (X : Type) (c : call X) (w : nat) : X * nat :=
  match c in call X return X * nat with
  | os_getenv _ => (None, w)
  | c' => respond [paris_call] c' w
  end.

(** The mocked services when the model answers without a tool call *)
Definition direct_answer : openai.ChatCompletionMessage :=
  {| openai.content := Some "It is mild in Paris."; openai.tool_calls := None |}.

Definition respond_without_tool_calls (X : Type) (c : call X) (w : nat) : X * nat :=
  match c in call X return X * nat with
  | chat_completions_create _ _ =>
      (inr {| openai.choices := [ {| openai.message := direct_answer |} ] |}, w)
  | c' => respond [] c' w
  end.

End tools_mock_more.

Module routing_mock_more.
Import routing routing_mock.

(** The extraction of the same meeting with another duration *)
Definition long_team_sync : NewEventDetails :=
  {| name := "Team Sync"; date := "2025-01-10T10:00"; duration_minutes := "90";
     participants := ["Alice"; "Bob"] |}.

Definition with_new_details (details : NewEventDetails) : mock :=
  {| classified := inl (APIError "Connection error.");
     new_details := inr (parsed_completion details []);
     modify_details := inl (APIError "Connection error.") |}.

End routing_mock_more.

(** * Properties *)

(** ** Running programs *)

Section run_facts.
Variable E : Type -> Type.
Variable W : Type.
Variable respond : forall X : Type, E X -> W -> X * W.

Lemma run_bind (A B : Type) (p : prog E A) (f : A -> prog E B) (w : W) :
  run respond (bind p f) w =
  match run respond p w with
  | (t, w1, inr a) =>
      let '(t2, w2, r) := run respond (f a) w1 in (t ++ t2, w2, r)
  | (t, w1, inl e) => (t, w1, inl e)
  end.
Proof.
  revert w. induction p as [a|e|X c k IH]; intros w; simpl.
  - destruct (run respond (f a) w) as [[t2 w2] r]. reflexivity.
  - reflexivity.
  - destruct (respond c w) as [x w1]. rewrite IH.
    destruct (run respond (k x) w1) as [[t w2] [e|a]]; [reflexivity|].
    destruct (run respond (f a) w2) as [[t2 w3] r]. reflexivity.
Qed.

Lemma run_vis (A X : Type) (c : E X) (k : X -> prog E A) (w : W) :
  run respond (Vis c k) w =
  let '(t, w2, r) := run respond (k (answer respond c w)) (after respond c w) in
  (Obs c (answer respond c w) :: t, w2, r).
Proof.
  unfold answer, after. simpl. destruct (respond c w) as [x w1]. reflexivity.
Qed.

Lemma run_for_in_cons (A V : Type) (x : A) (l : list A) (body : V -> A -> prog E V)
    (s : V) (w : W) :
  run respond (for_in (x :: l) body s) w =
  match run respond (body s x) w with
  | (t, w1, inr s1) =>
      let '(t2, w2, r) := run respond (for_in l body s1) w1 in (t ++ t2, w2, r)
  | (t, w1, inl e) => (t, w1, inl e)
  end.
Proof. simpl. apply run_bind. Qed.
End run_facts.

(** ** The routing functions *)

Section routing_facts.
Import routing.
Context {runtime : PythonRuntime} {pydantic : Pydantic}.
Variable client : openai.OpenAI.
Variable W : Type.
Variable respond : forall X : Type, call X -> W -> X * W.

(** Runs a function of the routing script up to its structured-output
    call, and names the answer of that call. *)
Ltac to_the_call :=
  unfold result_of, trace_of, route_calendar_request, handle_new_event,
    handle_modify_event, trigger, invoke;
  unfold classification, new_event_extraction, modify_event_extraction in *;
  cbn [bind]; rewrite !run_vis; cbn [instance] in *.

(** Runs the rest of the function once the answer is known. *)
Ltac to_the_end :=
  unfold parsed_completion; cbn -[run String.append]; rewrite ?run_vis; cbn -[String.append].

Lemma result_route_calendar_request (w : W) (user_input : string) :
  result_of respond (route_calendar_request client user_input) w =
  first_parsed (classification client respond w user_input).
Proof.
  to_the_call.
  destruct (answer _ _ _) as [e|[[|[[[result|]]] rest]]]; to_the_end; reflexivity.
Qed.

Lemma result_handle_new_event (w : W) (description : string) :
  result_of respond (handle_new_event client description) w =
  match first_parsed (new_event_extraction client respond w description) with
  | inr details =>
      inr {| success := true;
             message := "Created new event '" +:+ name details
                        +:+ "' for " +:+ date details
                        +:+ " with " +:+ join ", " (participants details);
             calendar_link := Some ("calendar://new?event=" +:+ name details) |}
  | inl e => inl e
  end.
Proof.
  to_the_call.
  destruct (answer _ _ _) as [e|[[|[[[details|]]] rest]]]; to_the_end; reflexivity.
Qed.

Lemma result_handle_modify_event (w : W) (description : string) :
  result_of respond (handle_modify_event client description) w =
  match first_parsed (modify_event_extraction client respond w description) with
  | inr details =>
      inr {| success := true;
             message := "Modified event '" +:+ event_identifier details
                        +:+ "' with the requested change.";
             calendar_link := Some ("calendar://modify?event="
                                    +:+ event_identifier details) |}
  | inl e => inl e
  end.
Proof.
  to_the_call.
  destruct (answer _ _ _) as [e|[[|[[[details|]]] rest]]]; to_the_end; reflexivity.
Qed.

Lemma calls_of_handle_new_event (w : W) (description : string) :
  forallb (@is_log_or_parse) (trace_of respond (handle_new_event client description) w) = true.
Proof.
  to_the_call.
  destruct (answer _ _ _) as [e|[[|[[[details|]]] rest]]]; to_the_end; reflexivity.
Qed.

Lemma calls_of_handle_modify_event (w : W) (description : string) :
  forallb (@is_log_or_parse) (trace_of respond (handle_modify_event client description) w) = true.
Proof.
  to_the_call.
  destruct (answer _ _ _) as [e|[[|[[[details|]]] rest]]]; to_the_end; reflexivity.
Qed.

(** A function that starts with a log line leaves that line in the trace
    of every run that invokes it. *)
Lemma invoked_logs (A : Type) (f : string -> prog call A) (msg : string) (t : trace call) :
  (forall argument, exists k, f argument = Vis (logger_info msg) k) ->
  invoked respond f t -> existsb (is_log msg) t = true.
Proof.
  intros Hf (argument & w & before & later & ->).
  destruct (Hf argument) as [k ->]. unfold trace_of. rewrite run_vis.
  destruct (run respond _ _) as [[t' w'] r]. cbn [fst].
  rewrite existsb_app. cbn [app existsb is_log]. rewrite String.eqb_refl.
  apply orb_true_r.
Qed.

Lemma logs_of_route_calendar_request (w : W) (user_input msg : string) :
  String.get 0 msg = Some "P"%char ->
  existsb (is_log msg) (trace_of respond (route_calendar_request client user_input) w) = false.
Proof.
  intros Hmsg. destruct msg as [|c msg]; [discriminate|].
  cbn in Hmsg. injection Hmsg as ->.
  to_the_call.
  destruct (answer _ _ _) as [e|[[|[[[result|]]] rest]]]; to_the_end; reflexivity.
Qed.

Lemma logs_of_script (w : W) (msg : string) :
  existsb (is_log msg) (trace_of respond script w) = false.
Proof.
  unfold trace_of, script, trigger. cbn [bind]. rewrite !run_vis.
  destruct (answer respond (os_getenv _) _) as [k|]; cbn -[run].
  - reflexivity.
  - rewrite run_vis. destruct (answer respond (os_getenv _) _) as [k|]; reflexivity.
Qed.

Lemma not_invoked_by_route_calendar_request (A : Type) (f : string -> prog call A)
    (msg : string) (w : W) (user_input : string) :
  String.get 0 msg = Some "P"%char ->
  (forall argument, exists k, f argument = Vis (logger_info msg) k) ->
  ~ invoked respond f (trace_of respond (route_calendar_request client user_input) w).
Proof.
  intros Hmsg Hf Hinv. apply (invoked_logs Hf) in Hinv.
  rewrite logs_of_route_calendar_request in Hinv by exact Hmsg. discriminate.
Qed.

Lemma not_invoked_by_script (A : Type) (f : string -> prog call A) (msg : string) (w : W) :
  (forall argument, exists k, f argument = Vis (logger_info msg) k) ->
  ~ invoked respond f (trace_of respond script w).
Proof.
  intros Hf Hinv. apply (invoked_logs Hf) in Hinv.
  rewrite logs_of_script in Hinv. discriminate.
Qed.

Lemma handle_new_event_starts (description : string) :
  exists k, handle_new_event client description
            = Vis (logger_info "Processing new event request") k.
Proof. eexists. reflexivity. Qed.

Lemma route_calendar_request_starts (user_input : string) :
  exists k, route_calendar_request client user_input
            = Vis (logger_info "Routing Calendar Request") k.
Proof. eexists. reflexivity. Qed.

Lemma handle_modify_event_starts (description : string) :
  exists k, handle_modify_event client description
            = Vis (logger_info "Processing event modification request") k.
Proof. eexists. reflexivity. Qed.

(** C2: when the extraction of [handle_new_event] gives a record with
    name "Team Sync", date "2025-01-10T10:00" and participants Alice and
    Bob, the function returns a response whose message is exactly
    "Created new event 'Team Sync' for 2025-01-10T10:00 with Alice, Bob". *)
Theorem handle_new_event_team_sync (w : W) (description : string) (details : NewEventDetails) :
  first_parsed (new_event_extraction client respond w description) = inr details ->
  name details = "Team Sync" ->
  date details = "2025-01-10T10:00" ->
  participants details = ["Alice"; "Bob"] ->
  exists r : CalendarResponse,
    result_of respond (handle_new_event client description) w = inr r /\
    message r = "Created new event 'Team Sync' for 2025-01-10T10:00 with Alice, Bob".
Proof.
  intros He Hname Hdate Hparticipants.
  rewrite result_handle_new_event, He. eexists. split; [reflexivity|].
  cbn [message]. rewrite Hname, Hdate, Hparticipants. reflexivity.
Qed.

(** C3: when the extraction of [handle_modify_event] gives a record with
    event_identifier "Team Sync", the function returns a response whose
    message is exactly "Modified event 'Team Sync' with the requested
    change." *)
Theorem handle_modify_event_team_sync (w : W) (description : string)
    (details : ModifyEventDetails) :
  first_parsed (modify_event_extraction client respond w description) = inr details ->
  event_identifier details = "Team Sync" ->
  exists r : CalendarResponse,
    result_of respond (handle_modify_event client description) w = inr r /\
    message r = "Modified event 'Team Sync' with the requested change.".
Proof.
  intros He Hid.
  rewrite result_handle_modify_event, He. eexists. split; [reflexivity|].
  cbn [message]. rewrite Hid. reflexivity.
Qed.

(** C6: on every input, [route_calendar_request] returns the record that
    the classification call delivered (and raises exactly when that call
    delivered none); the record's request_type is exactly one of
    new_event, modify_event and other, its confidence score is a float and
    its description a string. *)
Theorem route_calendar_request_contract (w : W) (user_input : string) :
  match first_parsed (classification client respond w user_input) with
  | inr result =>
      result_of respond (route_calendar_request client user_input) w = inr result /\
      exists (type : request_type_literal) (score : float) (text : string),
        result = {| request_type := type; confidence_score := score; description := text |} /\
        (type = new_event /\ type <> modify_event /\ type <> other \/
         type = modify_event /\ type <> new_event /\ type <> other \/
         type = other /\ type <> new_event /\ type <> modify_event) /\
        In (literal_str type) ["new_event"; "modify_event"; "other"]
  | inl e => result_of respond (route_calendar_request client user_input) w = inl e
  end.
Proof.
  rewrite result_route_calendar_request.
  destruct (first_parsed _) as [e|[type score text]]; [reflexivity|].
  split; [reflexivity|]. exists type, score, text. split; [reflexivity|].
  destruct type; cbn; intuition congruence.
Qed.

(** C7: for every extraction result, each handler returns the response
    that it formats from the record, with success=True and the link
    "calendar://new?event={name}", respectively
    "calendar://modify?event={event_identifier}"; a handler returns no
    other response (it raises when there is no extraction result), and
    the only calls of a run are log lines and calls of the completion
    client. *)
Theorem handlers_format_a_success_response (w : W) (description : string) :
  (match first_parsed (new_event_extraction client respond w description) with
   | inr details =>
       result_of respond (handle_new_event client description) w =
       inr {| success := true;
              message := "Created new event '" +:+ name details
                         +:+ "' for " +:+ date details
                         +:+ " with " +:+ join ", " (participants details);
              calendar_link := Some ("calendar://new?event=" +:+ name details) |}
   | inl e => result_of respond (handle_new_event client description) w = inl e
   end) /\
  (match first_parsed (modify_event_extraction client respond w description) with
   | inr details =>
       result_of respond (handle_modify_event client description) w =
       inr {| success := true;
              message := "Modified event '" +:+ event_identifier details
                         +:+ "' with the requested change.";
              calendar_link := Some ("calendar://modify?event="
                                     +:+ event_identifier details) |}
   | inl e => result_of respond (handle_modify_event client description) w = inl e
   end) /\
  forallb (@is_log_or_parse) (trace_of respond (handle_new_event client description) w) = true /\
  forallb (@is_log_or_parse) (trace_of respond (handle_modify_event client description) w) = true.
Proof.
  rewrite result_handle_new_event, result_handle_modify_event.
  repeat split.
  - destruct (first_parsed _); reflexivity.
  - destruct (first_parsed _); reflexivity.
  - apply calls_of_handle_new_event.
  - apply calls_of_handle_modify_event.
Qed.

(** C1, as the code has it: whatever the classification is (new_event,
    modify_event or other), [route_calendar_request] returns it and invokes
    neither [handle_new_event] nor [handle_modify_event], and the module
    body invokes none of the three functions, the router included: no
    category is dispatched to a handler. *)
Theorem no_category_is_dispatched (w : W) (user_input : string)
    (result : CalendarRequestType) :
  first_parsed (classification client respond w user_input) = inr result ->
  result_of respond (route_calendar_request client user_input) w = inr result /\
  ~ invoked respond (handle_new_event client)
      (trace_of respond (route_calendar_request client user_input) w) /\
  ~ invoked respond (handle_modify_event client)
      (trace_of respond (route_calendar_request client user_input) w) /\
  ~ invoked respond (handle_new_event client) (trace_of respond script w) /\
  ~ invoked respond (handle_modify_event client) (trace_of respond script w) /\
  ~ invoked respond (route_calendar_request client) (trace_of respond script w).
Proof.
  intros Hc. rewrite result_route_calendar_request, Hc.
  split; [reflexivity|]. repeat split.
  - apply not_invoked_by_route_calendar_request
      with (msg := "Processing new event request");
      [reflexivity | apply handle_new_event_starts].
  - apply not_invoked_by_route_calendar_request
      with (msg := "Processing event modification request");
      [reflexivity | apply handle_modify_event_starts].
  - apply not_invoked_by_script with (msg := "Processing new event request").
    apply handle_new_event_starts.
  - apply not_invoked_by_script with (msg := "Processing event modification request").
    apply handle_modify_event_starts.
  - apply not_invoked_by_script with (msg := "Routing Calendar Request").
    apply route_calendar_request_starts.
Qed.

End routing_facts.

(** C10: two runs of [handle_modify_event] whose extraction results agree
    on event_identifier return the same response, whatever the changes and
    the participant lists of the two results are. *)
Theorem handle_modify_event_depends_on_identifier_only
    {pydantic : routing.Pydantic} (client : openai.OpenAI)
    (W1 W2 : Type)
    (respond1 : forall X : Type, routing.call X -> W1 -> X * W1)
    (respond2 : forall X : Type, routing.call X -> W2 -> X * W2)
    (w1 : W1) (w2 : W2) (description1 description2 : string)
    (details1 details2 : routing.ModifyEventDetails) :
  first_parsed (modify_event_extraction client respond1 w1 description1) = inr details1 ->
  first_parsed (modify_event_extraction client respond2 w2 description2) = inr details2 ->
  routing.event_identifier details1 = routing.event_identifier details2 ->
  result_of respond1 (routing.handle_modify_event client description1) w1 =
  result_of respond2 (routing.handle_modify_event client description2) w2 /\
  exists r : routing.CalendarResponse,
    result_of respond1 (routing.handle_modify_event client description1) w1 = inr r.
Proof.
  intros He1 He2 Hid.
  rewrite !result_handle_modify_event, He1, He2, Hid.
  split; [reflexivity | eexists; reflexivity].
Qed.

(** *** The theorems on the mocked client *)

Section routing_tests.
Import routing routing_mock.
#[local] Existing Instance test_runtime.
#[local] Existing Instance test_pydantic.

Example run_handle_new_event :
  run (respond (classifies_as new_event move_team_sync))
      (handle_new_event client "Team sync with Alice and Bob") tt =
  ([ Obs (logger_info "Processing new event request") tt;
     Obs (chat_completions_parse client
            (prompt "Extract details for creating a new calendar event."
                    "Team sync with Alice and Bob")
            NewEventDetails_class)
         (inr (parsed_completion team_sync []));
     Obs (logger_info "New event: {...}") tt ],
   tt,
   inr {| success := true;
          message := "Created new event 'Team Sync' for 2025-01-10T10:00 with Alice, Bob";
          calendar_link := Some "calendar://new?event=Team Sync" |}).
Proof. reflexivity. Qed.

Example run_route_calendar_request :
  run (respond (classifies_as other move_team_sync))
      (route_calendar_request client "What is on my calendar?") tt =
  ([ Obs (logger_info "Routing Calendar Request") tt;
     Obs (chat_completions_parse client
            (prompt "Determine if this is a request to create a new calendar event or modify an existing one."
                    "What is on my calendar?")
            CalendarRequestType_class)
         (classified (classifies_as other move_team_sync));
     Obs (logger_info "Request routed as: other with confidence: 0.9") tt ],
   tt,
   inr {| request_type := other; confidence_score := 0.9%float;
          description := "Team sync with Alice and Bob" |}).
Proof. reflexivity. Qed.

(** The two ways in which a function ends without a record: the call
    raises, or the model refuses and [parsed] is [None]. *)
Example route_calendar_request_call_raises :
  run (respond {| classified := inl (APIError "Connection error.");
                  new_details := inr (parsed_completion team_sync []);
                  modify_details := inr (parsed_completion move_team_sync []) |})
      (route_calendar_request client "Team sync with Alice and Bob on Friday") tt =
  ([ Obs (logger_info "Routing Calendar Request") tt;
     Obs (chat_completions_parse client
            (prompt "Determine if this is a request to create a new calendar event or modify an existing one."
                    "Team sync with Alice and Bob on Friday")
            CalendarRequestType_class)
         (inl (APIError "Connection error.")) ],
   tt, inl (APIError "Connection error.")).
Proof. reflexivity. Qed.

Example handle_modify_event_refused :
  result_of
    (respond {| classified := inl (APIError "Connection error.");
                new_details := inr (parsed_completion team_sync []);
                modify_details :=
                  inr {| openai.Parsed.choices :=
                           [ {| openai.Parsed.message :=
                                  {| openai.Parsed.parsed := None |} |} ] |} |})
    (handle_modify_event client "Move the team sync to Saturday") tt
  = inl AttributeError.
Proof. reflexivity. Qed.

Example run_script :
  run (respond (classifies_as new_event move_team_sync)) script tt =
  ([ Obs (logging_basicConfig "INFO" "%(asctime)s - %(levelname)s - %(message)s"
                              "%Y-%m-%d %H:%M:%S") tt;
     Obs (os_getenv "OPENAI_API_KEY") (Some "sk-test") ],
   tt, inr client).
Proof. reflexivity. Qed.

Lemma handle_new_event_team_sync_witness :
  exists r : CalendarResponse,
    result_of (respond (classifies_as new_event move_team_sync))
              (handle_new_event client "Team sync with Alice and Bob") tt = inr r /\
    message r = "Created new event 'Team Sync' for 2025-01-10T10:00 with Alice, Bob".
Proof.
  apply (@handle_new_event_team_sync test_pydantic client unit
           (respond (classifies_as new_event move_team_sync)) tt
           "Team sync with Alice and Bob" team_sync); reflexivity.
Defined.

Lemma handle_modify_event_team_sync_witness :
  exists r : CalendarResponse,
    result_of (respond (classifies_as modify_event move_team_sync))
              (handle_modify_event client "Move the team sync to Saturday") tt = inr r /\
    message r = "Modified event 'Team Sync' with the requested change.".
Proof.
  apply (@handle_modify_event_team_sync test_pydantic client unit
           (respond (classifies_as modify_event move_team_sync)) tt
           "Move the team sync to Saturday" move_team_sync); reflexivity.
Defined.

Lemma handle_modify_event_depends_on_identifier_only_witness :
  changes move_team_sync <> changes rename_team_sync /\
  result_of (respond (classifies_as modify_event move_team_sync))
            (handle_modify_event client "Move the team sync to Saturday") tt =
  result_of (respond (classifies_as modify_event rename_team_sync))
            (handle_modify_event client "Call the team sync Weekly Sync, without Bob") tt.
Proof.
  split; [discriminate|].
  apply (@handle_modify_event_depends_on_identifier_only test_pydantic client unit unit
           (respond (classifies_as modify_event move_team_sync))
           (respond (classifies_as modify_event rename_team_sync)) tt tt
           "Move the team sync to Saturday" "Call the team sync Weekly Sync, without Bob"
           move_team_sync rename_team_sync); reflexivity.
Defined.

Lemma no_category_is_dispatched_witness :
  result_of (respond (classifies_as modify_event move_team_sync))
            (route_calendar_request client "Move the team sync to Saturday") tt
  = inr {| request_type := modify_event; confidence_score := 0.9%float;
           description := "Team sync with Alice and Bob" |} /\
  ~ invoked (respond (classifies_as modify_event move_team_sync)) (handle_modify_event client)
      (trace_of (respond (classifies_as modify_event move_team_sync))
                (route_calendar_request client "Move the team sync to Saturday") tt) /\
  ~ invoked (respond (classifies_as modify_event move_team_sync))
      (route_calendar_request client)
      (trace_of (respond (classifies_as modify_event move_team_sync)) script tt).
Proof.
  pose proof (@no_category_is_dispatched test_runtime test_pydantic client unit
                (respond (classifies_as modify_event move_team_sync)) tt
                "Move the team sync to Saturday"
                {| request_type := modify_event; confidence_score := 0.9%float;
                   description := "Team sync with Alice and Bob" |}
                eq_refl) as (Hresult & _ & Hmodify & _ & _ & Hrouter).
  split; [exact Hresult | split; [exact Hmodify | exact Hrouter]].
Defined.

(** C1, as the claim has it, fails: the request is classified as new_event,
    and neither the run of [route_calendar_request] nor the module body
    invokes [handle_new_event]. *)
Lemma new_event_is_not_dispatched :
  result_of (respond (classifies_as new_event move_team_sync))
            (route_calendar_request client "Team sync with Alice and Bob on Friday") tt
  = inr {| request_type := new_event; confidence_score := 0.9%float;
           description := "Team sync with Alice and Bob" |} /\
  ~ invoked (respond (classifies_as new_event move_team_sync)) (handle_new_event client)
      (trace_of (respond (classifies_as new_event move_team_sync))
                (route_calendar_request client "Team sync with Alice and Bob on Friday") tt) /\
  ~ invoked (respond (classifies_as new_event move_team_sync)) (handle_new_event client)
      (trace_of (respond (classifies_as new_event move_team_sync)) script tt).
Proof.
  split; [reflexivity|]. split.
  - apply not_invoked_by_route_calendar_request
      with (msg := "Processing new event request");
      [reflexivity | apply handle_new_event_starts].
  - apply not_invoked_by_script with (msg := "Processing new event request").
    apply handle_new_event_starts.
Qed.

End routing_tests.

(** ** The basic-completion script *)

Lemma length_append (a b : string) :
  String.length (a +:+ b) = String.length a + String.length b.
Proof. induction a as [|c a IH]; simpl; [reflexivity|]. now rewrite IH. Qed.

Lemma append_cancel_r (a b c : string) : a +:+ c = b +:+ c -> a = b.
Proof.
  revert b. induction a as [|x a IH]; intros [|y b] Habc.
  - reflexivity.
  - apply (f_equal String.length) in Habc.
    rewrite !length_append in Habc. simpl in Habc. lia.
  - apply (f_equal String.length) in Habc.
    rewrite !length_append in Habc. simpl in Habc. lia.
  - simpl in Habc. injection Habc as -> Habc. f_equal. now apply IH.
Qed.

Section basic_facts.
Import basic.
Variable p : process.

Lemma dotenv_apply_keeps (file environ : gmap string string) (key v : string) :
  environ !! key = Some v -> dotenv_apply file environ !! key = Some v.
Proof. intros Hkey. unfold dotenv_apply. now apply lookup_union_Some_l. Qed.

(** The part of the output that follows the key *)
Lemma output_with_key (environ : gmap string string) (k : string) :
  environ !! "OPENAI_API_KEY" = Some k ->
  output p environ =
  k +:+ LF +:+
  match service p {| openai.api_key := k |} request with
  | inr completion =>
      match openai.choices completion with
      | choice :: _ => default "None" (openai.content (openai.message choice)) +:+ LF
      | [] => ""
      end
  | inl _ => ""
  end.
Proof.
  intros Hk.
  pose proof (dotenv_apply_keeps (dotenv_file p) Hk) as Hk'.
  unfold output, trace_of, script, trigger, print_optional, trigger.
  cbn [bind]. rewrite !run_vis. unfold answer, after. cbn [respond fst snd].
  rewrite !Hk'. cbn [openai.new bind invoke default from_option id].
  rewrite run_vis. unfold answer, after. cbn [respond fst snd].
  destruct (service p _ request) as [e|[[|choice rest]]].
  all: cbn -[run]; try reflexivity.
Qed.

(** C8: the script prints the value of OPENAI_API_KEY before it creates the
    client and prints the response, so the standard output of two runs
    that differ only in the key (same .env file, same other variables,
    same answer of the service) differs. *)
Theorem api_key_reaches_stdout (environ : gmap string string) (k1 k2 : string) :
  service p {| openai.api_key := k1 |} request = service p {| openai.api_key := k2 |} request ->
  k1 <> k2 ->
  (exists (found : bool) (t : trace call),
     trace_of (respond p) script (<["OPENAI_API_KEY" := k1]> environ) =
     Obs load_dotenv found :: Obs (os_getenv "OPENAI_API_KEY") (Some k1)
       :: Obs (print k1) tt :: t) /\
  (exists rest : string,
     output p (<["OPENAI_API_KEY" := k1]> environ) = k1 +:+ LF +:+ rest /\
     output p (<["OPENAI_API_KEY" := k2]> environ) = k2 +:+ LF +:+ rest) /\
  output p (<["OPENAI_API_KEY" := k1]> environ) <> output p (<["OPENAI_API_KEY" := k2]> environ).
Proof.
  intros Hservice Hne.
  pose proof (output_with_key (environ := <["OPENAI_API_KEY" := k1]> environ) (k := k1)
                (lookup_insert_eq _ _ _)) as H1.
  pose proof (output_with_key (environ := <["OPENAI_API_KEY" := k2]> environ) (k := k2)
                (lookup_insert_eq _ _ _)) as H2.
  rewrite Hservice in H1.
  split; [|split].
  - unfold trace_of, script, trigger, print_optional, trigger.
    cbn [bind]. rewrite !run_vis. unfold answer, after. cbn [respond fst snd].
    rewrite !(dotenv_apply_keeps (dotenv_file p) (lookup_insert_eq environ _ k1)).
    cbn [default from_option id].
    destruct (run (respond p) _ _) as [[t w2] r]. cbn [fst]. eexists _, _. reflexivity.
  - eexists. split; [exact H1 | exact H2].
  - rewrite H1, H2. intros Heq. apply append_cancel_r in Heq. contradiction.
Qed.

End basic_facts.


(** *** The theorem on a mocked process *)

Example output_with_key_from_dotenv :
  basic.output basic_mock.process ∅ =
  "sk-from-dotenv" +:+ LF +:+ basic_mock.limerick +:+ LF.
Proof. vm_compute. reflexivity. Qed.

Example output_with_key_from_environment :
  basic.output basic_mock.process {[ "OPENAI_API_KEY" := "sk-one" ]} =
  "sk-one" +:+ LF +:+ basic_mock.limerick +:+ LF.
Proof. vm_compute. reflexivity. Qed.

Lemma api_key_reaches_stdout_witness :
  basic.output basic_mock.process (<["OPENAI_API_KEY" := "sk-one"]> ∅) <>
  basic.output basic_mock.process (<["OPENAI_API_KEY" := "sk-two"]> ∅).
Proof.
  apply (@api_key_reaches_stdout basic_mock.process ∅ "sk-one" "sk-two");
    [reflexivity | discriminate].
Defined.

(** ** The tool loop *)

Section tools_facts.
Import tools.
Context {runtime : PythonRuntime}.
Variable W : Type.
Variable respond : forall X : Type, call X -> W -> X * W.

Lemma run_bind_ret (A : Type) (p : prog call A) (w : W) :
  run respond (bind p (fun a => Ret a)) w = run respond p w.
Proof.
  rewrite run_bind. destruct (run respond p w) as [[t w1] [e|a]]; [reflexivity|].
  cbn. rewrite app_nil_r. reflexivity.
Qed.

Lemma call_function_unknown (name : string) (args : value) :
  name <> "get_weather" -> call_function name args = Ret VNone.
Proof.
  intros Hname. unfold call_function.
  destruct (String.eqb_spec name "get_weather") as [Heq|_]; [contradiction|reflexivity].
Qed.

Lemma call_function_get_weather (d : list (string * value)) (latitude longitude : value) :
  d ≡ₚ [("latitude", latitude); ("longitude", longitude)] ->
  call_function "get_weather" (VDict d) = get_weather latitude longitude.
Proof.
  intros Hd. symmetry in Hd. apply Permutation_length_2_inv in Hd.
  destruct Hd as [-> | ->]; reflexivity.
Qed.

(** One iteration: the arguments are decoded, the assistant's message is
    appended, the function is called and its result appended. *)
Lemma run_loop_body (completion : openai.ChatCompletion) (choice : openai.Choice)
    (rest : list openai.Choice) (messages : list openai.message_param)
    (tool_call : openai.ChatCompletionMessageToolCall) (w : W) :
  openai.choices completion = choice :: rest ->
  run respond (loop_body completion messages tool_call) w =
  match json_loads (openai.arguments (openai.function tool_call)) with
  | inl e => ([], w, inl e)
  | inr args =>
      match run respond (call_function (openai.name (openai.function tool_call)) args) w with
      | (t, w1, inr result) =>
          (t, w1, inr ((messages ++ [openai.MObject (openai.message choice)])
                       ++ [tool_message tool_call result]))
      | (t, w1, inl e) => (t, w1, inl e)
      end
  end.
Proof.
  intros Hchoices. unfold loop_body. rewrite Hchoices.
  destruct (json_loads _) as [e|args]; [reflexivity|].
  cbn [lift bind first_item]. rewrite run_bind.
  destruct (run respond _ w) as [[t w1] [e|result]]; [reflexivity|].
  cbn. rewrite app_nil_r. reflexivity.
Qed.

Lemma result_for_in_loop_body (completion : openai.ChatCompletion) (choice : openai.Choice)
    (rest : list openai.Choice)
    (tool_calls : list openai.ChatCompletionMessageToolCall)
    (messages : list openai.message_param) (w : W) :
  openai.choices completion = choice :: rest ->
  result_of respond (for_in tool_calls (loop_body completion) messages) w =
  match tool_results respond tool_calls w with
  | inr results =>
      inr (messages ++
           flat_map (fun cr => [openai.MObject (openai.message choice);
                                tool_message (fst cr) (snd cr)])
                    (combine tool_calls results))
  | inl e => inl e
  end.
Proof.
  intros Hchoices. unfold result_of. revert messages w.
  induction tool_calls as [|tool_call tool_calls IH]; intros messages w.
  - cbn. rewrite app_nil_r. reflexivity.
  - rewrite run_for_in_cons, (run_loop_body _ _ _ Hchoices).
    cbn [tool_results].
    destruct (json_loads _) as [e|args]; [reflexivity|].
    destruct (run respond (call_function _ args) w) as [[t w1] [e|result]]; [reflexivity|].
    specialize (IH ((messages ++ [openai.MObject (openai.message choice)])
                    ++ [tool_message tool_call result]) w1).
    destruct (run respond (for_in tool_calls _ _) w1) as [[t2 w2] r].
    cbn [snd] in IH |- *. rewrite IH.
    destruct (tool_results respond tool_calls w1) as [e|results]; [reflexivity|].
    cbn [combine flat_map fst snd]. rewrite <- !app_assoc. reflexivity.
Qed.

Lemma length_tool_results (tool_calls : list openai.ChatCompletionMessageToolCall)
    (w : W) (results : list value) :
  tool_results respond tool_calls w = inr results -> length results = length tool_calls.
Proof.
  revert w results. induction tool_calls as [|tool_call tool_calls IH]; intros w results.
  - cbn. intros [= <-]. reflexivity.
  - cbn [tool_results]. destruct (json_loads _) as [e|args]; [discriminate|].
    destruct (run respond _ w) as [[t w1] [e|result]]; [discriminate|].
    destruct (tool_results respond tool_calls w1) as [e|results'] eqn:Hrest; [discriminate|].
    intros [= <-]. cbn. f_equal. eapply IH, Hrest.
Qed.

Lemma count_objects_appended (m : openai.ChatCompletionMessage)
    (tool_calls : list openai.ChatCompletionMessageToolCall) (results : list value) :
  length results = length tool_calls ->
  length (List.filter is_object
            (flat_map (fun cr => [openai.MObject m; tool_message (fst cr) (snd cr)])
                      (combine tool_calls results)))
  = length tool_calls.
Proof.
  revert results. induction tool_calls as [|tool_call tool_calls IH];
    intros [|result results] Hlen; try discriminate; [reflexivity|].
  cbn in Hlen. injection Hlen as Hlen. cbn. f_equal. apply IH, Hlen.
Qed.

Lemma no_objects (l : list openai.message_param) :
  forallb (fun m => negb (is_object m)) l = true -> List.filter is_object l = [].
Proof.
  induction l as [|m l IH]; [reflexivity|]. cbn.
  destruct (is_object m); cbn; [discriminate|exact IH].
Qed.

(** C4: for a tool call whose name is not "get_weather", [call_function]
    makes no call and returns None, whatever the arguments are, and the
    iteration of the loop for that tool call appends a tool message whose
    content is "null". *)
Theorem unknown_tool_appends_null (completion : openai.ChatCompletion)
    (choice : openai.Choice) (rest : list openai.Choice)
    (messages : list openai.message_param)
    (tool_call : openai.ChatCompletionMessageToolCall) (args : value) (w : W) :
  openai.name (openai.function tool_call) <> "get_weather" ->
  openai.choices completion = choice :: rest ->
  json_loads (openai.arguments (openai.function tool_call)) = inr args ->
  (forall args' : value,
     call_function (openai.name (openai.function tool_call)) args' = Ret VNone) /\
  run respond (loop_body completion messages tool_call) w =
  ([], w,
   inr (messages ++
        [ openai.MObject (openai.message choice);
          openai.MDict [ ("role", "tool");
                         ("tool_call_id", openai.id tool_call);
                         ("content", "null") ] ])).
Proof.
  intros Hname Hchoices Hargs. split.
  - intros args'. apply call_function_unknown, Hname.
  - rewrite (run_loop_body _ _ _ Hchoices), Hargs, (call_function_unknown _ Hname).
    cbn. rewrite <- app_assoc. reflexivity.
Qed.

(** C5: for a completion whose message holds one tool call, named
    "get_weather", with the arguments latitude=48.85 and longitude=2.35,
    the loop runs [get_weather] on exactly these two arguments and, when it
    returns, appends after the assistant's message a tool message with the
    id of the tool call and with the JSON text of the returned value as
    content. *)
Theorem get_weather_tool_call (completion : openai.ChatCompletion)
    (m : openai.ChatCompletionMessage) (rest : list openai.Choice)
    (messages : list openai.message_param)
    (tool_call : openai.ChatCompletionMessageToolCall)
    (d : list (string * value)) (w : W) :
  openai.choices completion = {| openai.message := m |} :: rest ->
  openai.tool_calls m = Some [tool_call] ->
  openai.name (openai.function tool_call) = "get_weather" ->
  json_loads (openai.arguments (openai.function tool_call)) = inr (VDict d) ->
  d ≡ₚ [("latitude", VFloat 48.85); ("longitude", VFloat 2.35)] ->
  call_function (openai.name (openai.function tool_call)) (VDict d)
  = get_weather (VFloat 48.85) (VFloat 2.35) /\
  run respond (for_in [tool_call] (loop_body completion) messages) w =
  match run respond (get_weather (VFloat 48.85) (VFloat 2.35)) w with
  | (t, w1, inr result) =>
      (t, w1,
       inr (messages ++
            [ openai.MObject m;
              openai.MDict [ ("role", "tool");
                             ("tool_call_id", openai.id tool_call);
                             ("content", json_dumps result) ] ]))
  | (t, w1, inl e) => (t, w1, inl e)
  end.
Proof.
  intros Hchoices _ Hname Hargs Hd.
  rewrite Hname, (call_function_get_weather Hd). split; [reflexivity|].
  cbn [for_in]. rewrite run_bind_ret, (run_loop_body _ _ _ Hchoices), Hargs, Hname.
  rewrite (call_function_get_weather Hd).
  destruct (run respond _ w) as [[t w1] [e|result]]; [reflexivity|].
  rewrite <- app_assoc. reflexivity.
Qed.

(** C9: when the loop completes on k tool calls, it has appended, for each
    tool call in turn, the assistant's message and then the tool message
    of that call: k copies of the assistant's message, interleaved with
    the k tool messages; for k > 1 that is not the assistant's message
    once, followed by tool messages only. *)
Theorem assistant_message_is_appended_per_tool_call (completion : openai.ChatCompletion)
    (choice : openai.Choice) (rest : list openai.Choice)
    (tool_calls : list openai.ChatCompletionMessageToolCall)
    (messages : list openai.message_param) (w : W) :
  openai.choices completion = choice :: rest ->
  match tool_results respond tool_calls w with
  | inr results =>
      let appended :=
        flat_map (fun cr => [ openai.MObject (openai.message choice);
                              tool_message (fst cr) (snd cr) ])
                 (combine tool_calls results) in
      result_of respond (for_in tool_calls (loop_body completion) messages) w
      = inr (messages ++ appended) /\
      length results = length tool_calls /\
      length (List.filter is_object appended) = length tool_calls /\
      (1 < length tool_calls ->
       forall tool_messages : list openai.message_param,
         forallb (fun m => negb (is_object m)) tool_messages = true ->
         appended <> openai.MObject (openai.message choice) :: tool_messages)
  | inl e =>
      result_of respond (for_in tool_calls (loop_body completion) messages) w = inl e
  end.
Proof.
  intros Hchoices. rewrite (result_for_in_loop_body _ _ _ Hchoices).
  destruct (tool_results respond tool_calls w) as [e|results] eqn:Hresults; [reflexivity|].
  pose proof (length_tool_results Hresults) as Hlen.
  pose proof (count_objects_appended (openai.message choice) Hlen) as Hcount.
  cbv zeta. repeat split; [exact Hlen | exact Hcount |].
  intros Hk tool_messages Htools Happended.
  rewrite Happended in Hcount. cbn in Hcount.
  rewrite (no_objects Htools) in Hcount. cbn in Hcount. lia.
Qed.

End tools_facts.


(** *** The theorems on mocked services *)

Section tools_tests.
Import tools tools_mock.
#[local] Existing Instance test_runtime.

Example json_dumps_values :
  json_dumps (VList [VNone; VBool true; VInt (-3); VFloat 2.35; VDict []; VFloat nan])
  = "[null, true, -3, 2.35, {}, NaN]".
Proof. vm_compute. reflexivity. Qed.

Example call_function_not_a_mapping :
  call_function "get_weather" (VList []) = Raise TypeError.
Proof. reflexivity. Qed.

Example call_function_missing_argument :
  call_function "get_weather" (VDict [("latitude", VFloat 48.85)]) = Raise TypeError.
Proof. reflexivity. Qed.

Example run_get_weather :
  run (respond [paris_call]) (get_weather (VFloat 48.85) (VFloat 2.35)) 0 =
  ([ Obs (requests_get "https://api.open-meteo.com/v1/forecast?latitude=48.85&longitude=2.35&current=temperature_2m,wind_speed_10m&hourly=temperature_2m,relative_humidity_2m,wind_speed_10m")
         (inr {| json := inr weather |}) ],
   1,
   inr (VDict [ ("time", VStr "2025-01-10T10:00"); ("interval", VInt 900);
                ("temperature_2m", VFloat 11.4) ])).
Proof. vm_compute. reflexivity. Qed.

(** The second request of the script carries the assistant's message once
    for each of the two tool calls. *)
Example run_script_two_tool_calls :
  exists answer_1 answer_2,
    trace_of (respond [paris_call; time_call]) script 0 =
    [ Obs (os_getenv "OPENAI_API_KEY") (Some "sk-test");
      Obs (chat_completions_create {| openai.api_key := "sk-test" |}
             {| openai.model := "gpt-4o"; openai.messages := messages;
                openai.tools := Some tools.tools |})
          (inr (completion [paris_call; time_call]));
      Obs (requests_get "https://api.open-meteo.com/v1/forecast?latitude=48.85&longitude=2.35&current=temperature_2m,wind_speed_10m&hourly=temperature_2m,relative_humidity_2m,wind_speed_10m")
          answer_1;
      Obs (chat_completions_parse {| openai.api_key := "sk-test" |}
             {| openai.model := "gpt-4o";
                openai.messages :=
                  messages ++
                  [ openai.MObject (assistant [paris_call; time_call]);
                    openai.MDict [ ("role", "tool"); ("tool_call_id", "call_1");
                                   ("content",
                                    "{" +:+ DQ +:+ "time" +:+ DQ +:+ ": " +:+ DQ
                                    +:+ "2025-01-10T10:00" +:+ DQ +:+ ", " +:+ DQ
                                    +:+ "interval" +:+ DQ +:+ ": 900, " +:+ DQ
                                    +:+ "temperature_2m" +:+ DQ +:+ ": 11.4}") ];
                    openai.MObject (assistant [paris_call; time_call]);
                    openai.MDict [ ("role", "tool"); ("tool_call_id", "call_2");
                                   ("content", "null") ] ];
                openai.tools := Some tools.tools |})
          answer_2 ].
Proof. eexists _, _. vm_compute. reflexivity. Qed.

Lemma unknown_tool_appends_null_witness :
  run (respond [time_call]) (loop_body (completion [time_call]) messages time_call) 0 =
  ([], 0,
   inr (messages ++
        [ openai.MObject (assistant [time_call]);
          openai.MDict [ ("role", "tool"); ("tool_call_id", "call_2");
                         ("content", "null") ] ])).
Proof.
  apply (@unknown_tool_appends_null test_runtime nat (respond [time_call])
           (completion [time_call]) {| openai.message := assistant [time_call] |} []
           messages time_call (VDict []) 0);
    [discriminate | reflexivity | reflexivity].
Defined.

Lemma get_weather_tool_call_witness :
  run (respond [paris_call])
      (for_in [paris_call] (loop_body (completion [paris_call])) messages) 0 =
  ([ Obs (requests_get "https://api.open-meteo.com/v1/forecast?latitude=48.85&longitude=2.35&current=temperature_2m,wind_speed_10m&hourly=temperature_2m,relative_humidity_2m,wind_speed_10m")
         (inr {| json := inr weather |}) ],
   1,
   inr (messages ++
        [ openai.MObject (assistant [paris_call]);
          openai.MDict
            [ ("role", "tool"); ("tool_call_id", "call_1");
              ("content",
               json_dumps (VDict [ ("time", VStr "2025-01-10T10:00"); ("interval", VInt 900);
                                   ("temperature_2m", VFloat 11.4) ])) ] ])).
Proof.
  apply (@get_weather_tool_call test_runtime nat (respond [paris_call])
           (completion [paris_call]) (assistant [paris_call]) [] messages paris_call
           [("latitude", VFloat 48.85); ("longitude", VFloat 2.35)] 0);
    reflexivity.
Defined.

Lemma assistant_message_is_appended_per_tool_call_witness :
  result_of (respond [paris_call; time_call])
            (for_in [paris_call; time_call] (loop_body (completion [paris_call; time_call]))
                    messages) 0 =
  inr (messages ++
       [ openai.MObject (assistant [paris_call; time_call]);
         tool_message paris_call
           (VDict [ ("time", VStr "2025-01-10T10:00"); ("interval", VInt 900);
                    ("temperature_2m", VFloat 11.4) ]);
         openai.MObject (assistant [paris_call; time_call]);
         tool_message time_call VNone ]).
Proof.
  apply (@assistant_message_is_appended_per_tool_call test_runtime nat
           (respond [paris_call; time_call]) (completion [paris_call; time_call])
           {| openai.message := assistant [paris_call; time_call] |} []
           [paris_call; time_call] messages 0 eq_refl).
Defined.

End tools_tests.

(** * Further properties of the scripts *)

(** ** The weather function and the tool loop *)

Section tools_more_facts.
Import tools.
Context {runtime : PythonRuntime}.
Variable W : Type.
Variable respond : forall X : Type, call X -> W -> X * W.

(** The run of [get_weather]: one request, then the reading of the answer *)
Lemma run_get_weather_shape (latitude longitude : value) (w : W) :
  run respond (get_weather latitude longitude) w =
  ([ Obs (requests_get (forecast_url latitude longitude))
         (answer respond (requests_get (forecast_url latitude longitude)) w) ],
   after respond (requests_get (forecast_url latitude longitude)) w,
   match answer respond (requests_get (forecast_url latitude longitude)) w with
   | inl e => inl e
   | inr response =>
       match json response with
       | inl e => inl e
       | inr (VDict data) =>
           match dict_get "current" data with
           | Some current => inr current
           | None => inl (KeyError "current")
           end
       | inr _ => inl TypeError
       end
   end).
Proof.
  unfold get_weather, invoke. cbn [bind]. rewrite run_vis. fold (forecast_url latitude longitude).
  destruct (answer respond _ w) as [e|[[e|data]]]; try reflexivity.
  destruct data as [| | | | | |data]; try reflexivity.
  cbn. destruct (dict_get "current" data); reflexivity.
Qed.

(** X1: [get_weather] makes exactly one request, to the forecast URL that
    holds the text of both arguments, and returns the "current" entry of
    the decoded answer; an exception of the request or of the decoding
    propagates, an answer without "current" raises KeyError and an answer
    that is not an object raises TypeError. *)
Theorem get_weather_behaviour (latitude longitude : value) (w : W) :
  run respond (get_weather latitude longitude) w =
  ([ Obs (requests_get (forecast_url latitude longitude))
         (answer respond (requests_get (forecast_url latitude longitude)) w) ],
   after respond (requests_get (forecast_url latitude longitude)) w,
   match answer respond (requests_get (forecast_url latitude longitude)) w with
   | inl e => inl e
   | inr response =>
       match json response with
       | inl e => inl e
       | inr (VDict data) =>
           match dict_get "current" data with
           | Some current => inr current
           | None => inl (KeyError "current")
           end
       | inr _ => inl TypeError
       end
   end).
Proof. apply run_get_weather_shape. Qed.

Lemma keywords2_only (p1 p2 : string) (d : list (string * value)) (a b : value) :
  keywords2 p1 p2 (VDict d) = inr (a, b) ->
  dict_get p1 d = Some a /\ dict_get p2 d = Some b /\
  forall k v, In (k, v) d -> k = p1 \/ k = p2.
Proof.
  cbn. destruct (forallb _ d) eqn:Hall; [|discriminate].
  destruct (dict_get p1 d) as [a'|]; [|discriminate].
  destruct (dict_get p2 d) as [b'|]; [|discriminate].
  intros [= <- <-]. repeat split.
  intros k v Hin. rewrite forallb_forall in Hall. specialize (Hall _ Hin). cbn in Hall.
  apply orb_true_iff in Hall. destruct Hall as [Hk|Hk]; apply String.eqb_eq in Hk; auto.
Qed.

(** X2: called for "get_weather" with arguments that are not a mapping, or
    that lack latitude or longitude, or that hold another key,
    [call_function] raises TypeError and makes no request. *)
Theorem get_weather_arguments_are_checked (args : value) (w : W) :
  (forall d : list (string * value), args = VDict d ->
     dict_get "latitude" d = None \/ dict_get "longitude" d = None \/
     exists k v, In (k, v) d /\ k <> "latitude" /\ k <> "longitude") ->
  run respond (call_function "get_weather" args) w = ([], w, inl TypeError).
Proof.
  intros Hbad. unfold call_function. cbn [String.eqb Ascii.eqb Bool.eqb].
  change (String.eqb "get_weather" "get_weather") with true. cbn iota.
  destruct (keywords2 "latitude" "longitude" args) as [e|[a b]] eqn:Hkw.
  - assert (e = TypeError) as ->.
    { destruct args as [| | | | | |d]; cbn in Hkw; try (injection Hkw as <-; reflexivity).
      destruct (forallb _ d); [|injection Hkw as <-; reflexivity].
      destruct (dict_get "latitude" d); [|injection Hkw as <-; reflexivity].
      destruct (dict_get "longitude" d); [discriminate|injection Hkw as <-; reflexivity]. }
    reflexivity.
  - destruct args as [| | | | | |d]; try discriminate.
    apply keywords2_only in Hkw. destruct Hkw as (Hlat & Hlon & Honly).
    destruct (Hbad d eq_refl) as [H1|[H2|(k & v & Hin & Hk1 & Hk2)]]; try congruence.
    destruct (Honly k v Hin); contradiction.
Qed.

(** X3: for a dict that has exactly the keys latitude and longitude, in
    either order and with any values, [call_function] runs [get_weather] on
    the two values. *)
Theorem get_weather_arguments_in_any_order (d : list (string * value))
    (latitude longitude : value) (w : W) :
  d ≡ₚ [("latitude", latitude); ("longitude", longitude)] ->
  run respond (call_function "get_weather" (VDict d)) w =
  run respond (get_weather latitude longitude) w.
Proof. intros Hd. rewrite (call_function_get_weather Hd). reflexivity. Qed.

(** The requests of one call of [call_function] *)
Lemma requests_of_call_function (name : string) (args : value) (w : W) :
  forallb (@is_request) (trace_of respond (call_function name args) w) = true /\
  length (trace_of respond (call_function name args) w)
    <= (if String.eqb name "get_weather" then 1 else 0) /\
  match result_of respond (call_function name args) w with
  | inr _ => length (trace_of respond (call_function name args) w)
             = if String.eqb name "get_weather" then 1 else 0
  | inl _ => True
  end.
Proof.
  unfold trace_of, result_of, call_function.
  destruct (String.eqb name "get_weather"); [|cbn; auto].
  destruct (keywords2 "latitude" "longitude" args) as [e|[a b]]; [cbn; auto|].
  cbn [lift bind fst snd]. rewrite run_get_weather_shape. cbn [fst snd].
  split; [reflexivity|]. split; [cbn; lia|].
  destruct (match answer respond _ w with inl e => _ | inr _ => _ end); [exact I | reflexivity].
Qed.

Lemma requests_of_loop_body (completion : openai.ChatCompletion)
    (messages : list openai.message_param)
    (tool_call : openai.ChatCompletionMessageToolCall) (w : W) :
  forallb (@is_request) (trace_of respond (loop_body completion messages tool_call) w) = true /\
  length (trace_of respond (loop_body completion messages tool_call) w)
    <= (if names_get_weather tool_call then 1 else 0) /\
  match result_of respond (loop_body completion messages tool_call) w with
  | inr _ => length (trace_of respond (loop_body completion messages tool_call) w)
             = if names_get_weather tool_call then 1 else 0
  | inl _ => True
  end.
Proof.
  unfold trace_of, result_of, loop_body, names_get_weather.
  destruct (json_loads _) as [e|args]; [cbn; repeat split; lia|].
  destruct (first_item _) as [e|choice]; [cbn; repeat split; lia|].
  cbn [lift bind]. rewrite run_bind.
  pose proof (requests_of_call_function (openai.name (openai.function tool_call)) args w)
    as (Hall & Hle & Heq).
  unfold trace_of, result_of in Hall, Hle, Heq.
  destruct (run respond (call_function _ args) w) as [[t w1] [e|result]];
    cbn [fst snd] in *; [auto|].
  cbn. rewrite app_nil_r. auto.
Qed.

Lemma requests_of_loop (completion : openai.ChatCompletion)
    (tool_calls : list openai.ChatCompletionMessageToolCall)
    (messages : list openai.message_param) (w : W) :
  forallb (@is_request)
    (trace_of respond (for_in tool_calls (loop_body completion) messages) w) = true /\
  length (trace_of respond (for_in tool_calls (loop_body completion) messages) w)
    <= length (List.filter names_get_weather tool_calls) /\
  match result_of respond (for_in tool_calls (loop_body completion) messages) w with
  | inr _ => length (trace_of respond (for_in tool_calls (loop_body completion) messages) w)
             = length (List.filter names_get_weather tool_calls)
  | inl _ => True
  end.
Proof.
  unfold trace_of, result_of. revert messages w.
  induction tool_calls as [|tool_call tool_calls IH]; intros messages w.
  - cbn. auto.
  - rewrite run_for_in_cons.
    pose proof (requests_of_loop_body completion messages tool_call w) as (Hall & Hle & Heq).
    unfold trace_of, result_of in Hall, Hle, Heq.
    destruct (run respond (loop_body completion messages tool_call) w)
      as [[t w1] [e|messages1]]; cbn [fst snd] in *.
    + split; [exact Hall|]. split; [|exact I].
      cbn [List.filter]. destruct (names_get_weather tool_call); cbn [length]; lia.
    + specialize (IH messages1 w1).
      destruct (run respond (for_in tool_calls _ messages1) w1) as [[t2 w2] r].
      cbn [fst snd] in *. destruct IH as (Hall2 & Hle2 & Heq2).
      rewrite forallb_app, length_app, Hall, Hall2.
      split; [reflexivity|]. cbn [List.filter].
      destruct (names_get_weather tool_call); cbn [length];
        (split; [lia|]); (destruct r; [exact I | lia]).
Qed.

(** X4: the loop calls nothing but the weather endpoint; it makes at most
    one request for each tool call named "get_weather" and none for the
    others, and exactly one for each when it completes. *)
Theorem tool_loop_requests (completion : openai.ChatCompletion)
    (tool_calls : list openai.ChatCompletionMessageToolCall)
    (messages : list openai.message_param) (w : W) :
  forallb (@is_request)
    (trace_of respond (for_in tool_calls (loop_body completion) messages) w) = true /\
  length (trace_of respond (for_in tool_calls (loop_body completion) messages) w)
    <= length (List.filter names_get_weather tool_calls) /\
  match result_of respond (for_in tool_calls (loop_body completion) messages) w with
  | inr _ => length (trace_of respond (for_in tool_calls (loop_body completion) messages) w)
             = length (List.filter names_get_weather tool_calls)
  | inl _ => True
  end.
Proof. apply requests_of_loop. Qed.



(** Runs the script up to the loop. *)
Ltac to_the_loop :=
  unfold script, trigger, invoke; cbn [bind]; rewrite !run_vis.

(** X6: when the key is set, the model asks for tool calls and every tool
    call returns, the script makes, after the requests of the loop, one
    second request to the model: with the same client, model and tools, and
    with the first two messages followed, for each tool call in turn, by
    the assistant's message and the tool message of its result.  The
    script ends normally when that request yields a parsed answer, and
    with its exception otherwise. *)
Theorem script_second_request (w : W) (key : string)
    (completion : openai.ChatCompletion) (choice : openai.Choice)
    (rest : list openai.Choice)
    (tool_calls : list openai.ChatCompletionMessageToolCall) (results : list value) :
  answer respond (os_getenv "OPENAI_API_KEY") w = Some key ->
  answer respond (chat_completions_create {| openai.api_key := key |} first_request)
         (after respond (os_getenv "OPENAI_API_KEY") w) = inr completion ->
  openai.choices completion = choice :: rest ->
  openai.tool_calls (openai.message choice) = Some tool_calls ->
  tool_results respond tool_calls
    (after respond (chat_completions_create {| openai.api_key := key |} first_request)
           (after respond (os_getenv "OPENAI_API_KEY") w)) = inr results ->
  exists (requests : trace call)
         (answer_2 : exn + openai.Parsed.ChatCompletion WeatherResponse),
    trace_of respond script w =
    Obs (os_getenv "OPENAI_API_KEY") (Some key)
    :: Obs (chat_completions_create {| openai.api_key := key |} first_request) (inr completion)
    :: requests ++
       [ Obs (chat_completions_parse {| openai.api_key := key |}
                (second_request
                   (messages ++
                    flat_map (fun cr => [ openai.MObject (openai.message choice);
                                          tool_message (fst cr) (snd cr) ])
                             (combine tool_calls results))))
             answer_2 ] /\
    forallb (@is_request) requests = true /\
    result_of respond script w =
    match first_parsed answer_2 with
    | inr _ => inr tt
    | inl e => inl e
    end.
Proof.
  intros Hkey Hfirst Hchoices Hcalls Hresults.
  pose proof (result_for_in_loop_body respond tool_calls messages
                (after respond (chat_completions_create {| openai.api_key := key |} first_request)
                       (after respond (os_getenv "OPENAI_API_KEY") w)) Hchoices) as Hloop.
  pose proof (requests_of_loop completion tool_calls messages
                (after respond (chat_completions_create {| openai.api_key := key |} first_request)
                       (after respond (os_getenv "OPENAI_API_KEY") w))) as (Hall & _).
  rewrite Hresults in Hloop. unfold result_of, trace_of in Hloop, Hall |- *.
  to_the_loop. rewrite Hkey. cbn [openai.new bind]. rewrite run_vis.
  fold first_request. rewrite Hfirst. cbn [lift bind]. rewrite Hchoices.
  cbn [first_item lift bind]. rewrite Hcalls. cbn [lift bind]. rewrite run_bind.
  destruct (run respond (for_in tool_calls _ messages) _) as [[requests w3] r].
  cbn [fst snd] in Hloop, Hall. subst r. rewrite run_vis.
  match goal with |- context [answer respond (chat_completions_parse ?c ?r) w3] =>
    exists requests, (answer respond (chat_completions_parse c r) w3);
    destruct (answer respond (chat_completions_parse c r) w3)
      as [e|[[|[[[final|]]] others]]]
  end; cbn; (split; [reflexivity|]); (split; [exact Hall | reflexivity]).
Qed.

(** X7: when the model answers without a tool call, its message has no
    list of tool calls and the loop over it raises TypeError: the script
    ends there, without a request to the weather endpoint and without the
    second request to the model. *)
Theorem script_without_tool_calls (w : W) (key : string)
    (completion : openai.ChatCompletion) (choice : openai.Choice)
    (rest : list openai.Choice) :
  answer respond (os_getenv "OPENAI_API_KEY") w = Some key ->
  answer respond (chat_completions_create {| openai.api_key := key |} first_request)
         (after respond (os_getenv "OPENAI_API_KEY") w) = inr completion ->
  openai.choices completion = choice :: rest ->
  openai.tool_calls (openai.message choice) = None ->
  run respond script w =
  ([ Obs (os_getenv "OPENAI_API_KEY") (Some key);
     Obs (chat_completions_create {| openai.api_key := key |} first_request) (inr completion) ],
   after respond (chat_completions_create {| openai.api_key := key |} first_request)
         (after respond (os_getenv "OPENAI_API_KEY") w),
   inl TypeError).
Proof.
  intros Hkey Hfirst Hchoices Hcalls.
  to_the_loop. rewrite Hkey. cbn [openai.new bind]. rewrite run_vis.
  fold first_request. rewrite Hfirst. cbn [lift bind]. rewrite Hchoices.
  cbn [first_item lift bind]. rewrite Hcalls. reflexivity.
Qed.

(** X8: without OPENAI_API_KEY in the environment, the construction of
    the client raises and the script ends before any request, to the model
    or to the weather endpoint. *)
Theorem script_without_api_key (w : W) :
  answer respond (os_getenv "OPENAI_API_KEY") w = None ->
  answer respond (os_getenv "OPENAI_API_KEY")
         (after respond (os_getenv "OPENAI_API_KEY") w) = None ->
  run respond script w =
  ([ Obs (os_getenv "OPENAI_API_KEY") None; Obs (os_getenv "OPENAI_API_KEY") None ],
   after respond (os_getenv "OPENAI_API_KEY") (after respond (os_getenv "OPENAI_API_KEY") w),
   inl OpenAIError).
Proof.
  intros Hkey Hkey'.
  to_the_loop. rewrite Hkey. cbn [openai.new bind trigger]. rewrite run_vis, Hkey'.
  reflexivity.
Qed.

End tools_more_facts.

Section tools_more_tests.
Import tools tools_mock tools_mock_more.
#[local] Existing Instance test_runtime.

Example run_script_without_tool_calls :
  result_of respond_without_tool_calls script 0 = inl TypeError.
Proof. vm_compute. reflexivity. Qed.

Lemma get_weather_arguments_are_checked_witness :
  run (respond [paris_call])
      (call_function "get_weather" (VDict [("latitude", VFloat 48.85)])) 0
  = ([], 0, inl TypeError).
Proof.
  apply (@get_weather_arguments_are_checked test_runtime nat (respond [paris_call])
           (VDict [("latitude", VFloat 48.85)]) 0).
  intros d [= <-]. right. left. reflexivity.
Defined.

Lemma get_weather_arguments_in_any_order_witness :
  run (respond [paris_call])
      (call_function "get_weather" (VDict [("longitude", VInt 2); ("latitude", VInt 49)])) 0
  = run (respond [paris_call]) (get_weather (VInt 49) (VInt 2)) 0.
Proof.
  apply (@get_weather_arguments_in_any_order test_runtime nat (respond [paris_call])
           [("longitude", VInt 2); ("latitude", VInt 49)] (VInt 49) (VInt 2) 0).
  apply perm_swap.
Defined.


Lemma script_second_request_witness :
  exists (requests : trace call)
         (answer_2 : exn + openai.Parsed.ChatCompletion WeatherResponse),
    trace_of (respond [paris_call; time_call]) script 0 =
    Obs (os_getenv "OPENAI_API_KEY") (Some "sk-test")
    :: Obs (chat_completions_create {| openai.api_key := "sk-test" |} first_request)
           (inr (completion [paris_call; time_call]))
    :: requests ++
       [ Obs (chat_completions_parse {| openai.api_key := "sk-test" |}
                (second_request
                   (messages ++
                    [ openai.MObject (assistant [paris_call; time_call]);
                      tool_message paris_call
                        (VDict [ ("time", VStr "2025-01-10T10:00"); ("interval", VInt 900);
                                 ("temperature_2m", VFloat 11.4) ]);
                      openai.MObject (assistant [paris_call; time_call]);
                      tool_message time_call VNone ])))
             answer_2 ] /\
    forallb (@is_request) requests = true /\
    result_of (respond [paris_call; time_call]) script 0 =
    match first_parsed answer_2 with
    | inr _ => inr tt
    | inl e => inl e
    end.
Proof.
  apply (@script_second_request test_runtime nat (respond [paris_call; time_call]) 0 "sk-test"
           (completion [paris_call; time_call])
           {| openai.message := assistant [paris_call; time_call] |} []
           [paris_call; time_call]
           [ VDict [ ("time", VStr "2025-01-10T10:00"); ("interval", VInt 900);
                     ("temperature_2m", VFloat 11.4) ]; VNone ]);
    reflexivity.
Defined.

Lemma script_without_tool_calls_witness :
  run respond_without_tool_calls script 0 =
  ([ Obs (os_getenv "OPENAI_API_KEY") (Some "sk-test");
     Obs (chat_completions_create {| openai.api_key := "sk-test" |} first_request)
         (inr {| openai.choices := [ {| openai.message := direct_answer |} ] |}) ],
   0, inl TypeError).
Proof.
  apply (@script_without_tool_calls test_runtime nat respond_without_tool_calls 0 "sk-test"
           {| openai.choices := [ {| openai.message := direct_answer |} ] |}
           {| openai.message := direct_answer |} []); reflexivity.
Defined.

Lemma script_without_api_key_witness :
  run respond_without_key script 0 =
  ([ Obs (os_getenv "OPENAI_API_KEY") None; Obs (os_getenv "OPENAI_API_KEY") None ],
   0, inl OpenAIError).
Proof.
  apply (@script_without_api_key test_runtime nat respond_without_key 0); reflexivity.
Defined.

End tools_more_tests.

(** ** The basic-completion script, on failure *)

Section basic_more_facts.
Import basic.
Variable p : process.

(** X9: when OPENAI_API_KEY is set neither in the environment nor in the
    .env file, the script prints the line "None", then the construction of
    the client raises and the script ends without a request. *)
Theorem basic_script_without_api_key (environ : gmap string string) :
  environ !! "OPENAI_API_KEY" = None ->
  dotenv_file p !! "OPENAI_API_KEY" = None ->
  trace_of (respond p) script environ =
  [ Obs load_dotenv (bool_decide (dotenv_file p <> ∅));
    Obs (os_getenv "OPENAI_API_KEY") None;
    Obs (print "None") tt;
    Obs (os_getenv "OPENAI_API_KEY") None;
    Obs (os_getenv "OPENAI_API_KEY") None ] /\
  result_of (respond p) script environ = inl OpenAIError /\
  output p environ = "None" +:+ LF.
Proof.
  intros Henv Hfile.
  assert (Hk : dotenv_apply (dotenv_file p) environ !! "OPENAI_API_KEY" = None).
  { unfold dotenv_apply. apply lookup_union_None. split; assumption. }
  unfold output, trace_of, result_of, script, trigger, print_optional, trigger.
  cbn [bind]. rewrite !run_vis. unfold answer, after. cbn [respond fst snd].
  rewrite !Hk. cbn [openai.new bind default from_option id].
  rewrite run_vis. unfold answer, after. cbn [respond fst snd]. rewrite Hk.
  cbn. repeat split.
Qed.

(** X10: with the key set, the script ends normally when the completion
    has a choice, with IndexError when it has none and with the exception
    of the request when it raises; in the two failing cases the key line
    is all that the script has printed. *)
Theorem basic_script_result (environ : gmap string string) (k : string) :
  environ !! "OPENAI_API_KEY" = Some k ->
  match service p {| openai.api_key := k |} request with
  | inl e =>
      result_of (respond p) script environ = inl e /\
      output p environ = k +:+ LF
  | inr completion =>
      match openai.choices completion with
      | [] =>
          result_of (respond p) script environ = inl IndexError /\
          output p environ = k +:+ LF
      | choice :: _ =>
          result_of (respond p) script environ = inr tt /\
          output p environ =
          k +:+ LF +:+ default "None" (openai.content (openai.message choice)) +:+ LF
      end
  end.
Proof.
  intros Hk.
  pose proof (output_with_key p Hk) as Hout.
  pose proof (dotenv_apply_keeps (dotenv_file p) Hk) as Hk'.
  unfold result_of, script, trigger, print_optional, trigger.
  cbn [bind]. rewrite !run_vis. unfold answer, after. cbn [respond fst snd].
  rewrite !Hk'. cbn [openai.new bind invoke default from_option id].
  rewrite run_vis. unfold answer, after. cbn [respond fst snd].
  destruct (service p _ request) as [e|[[|choice rest]]]; cbn in Hout |- *;
    (split; [reflexivity|]); rewrite Hout; try reflexivity.
  all: clear; induction k as [|c k IH]; cbn; [reflexivity | now rewrite IH].
Qed.

End basic_more_facts.

Lemma basic_script_without_api_key_witness :
  basic.output {| basic.dotenv_file := ∅; basic.service := basic.service basic_mock.process |} ∅
  = "None" +:+ LF.
Proof.
  apply (@basic_script_without_api_key
           {| basic.dotenv_file := ∅; basic.service := basic.service basic_mock.process |} ∅);
    reflexivity.
Defined.

Lemma basic_script_result_witness :
  result_of (basic.respond basic_mock.process) basic.script {[ "OPENAI_API_KEY" := "sk-one" ]}
  = inr tt /\
  basic.output basic_mock.process {[ "OPENAI_API_KEY" := "sk-one" ]} =
  "sk-one" +:+ LF +:+ basic_mock.limerick +:+ LF.
Proof.
  apply (@basic_script_result basic_mock.process {[ "OPENAI_API_KEY" := "sk-one" ]} "sk-one").
  reflexivity.
Defined.

(** ** The routing functions, run by run *)

Lemma append_cancel_l (a b c : string) : a +:+ b = a +:+ c -> b = c.
Proof.
  induction a as [|x a IH]; simpl; intros Habc; [exact Habc|].
  injection Habc as Habc. now apply IH.
Qed.

Section routing_more_facts.
Import routing.
Context {runtime : PythonRuntime} {pydantic : Pydantic}.
Variable client : openai.OpenAI.
Variable W : Type.
Variable respond : forall X : Type, call X -> W -> X * W.

Ltac to_the_call :=
  unfold result_of, trace_of, route_calendar_request, handle_new_event,
    handle_modify_event, trigger, invoke;
  unfold classification, new_event_extraction, modify_event_extraction in *;
  cbn [bind]; rewrite !run_vis; cbn [instance] in *.

Ltac to_the_end :=
  unfold parsed_completion; cbn -[run String.append]; rewrite ?run_vis; cbn -[String.append].

Ltac unit_answers :=
  repeat match goal with
         | |- context [answer respond (logger_info ?m) ?w] =>
             destruct (answer respond (logger_info m) w)
         end.

(** X11: every run of a routing function makes exactly one request to the
    model, also when the request fails: after its first log line the
    function passes its text unchanged, after the fixed instruction, and
    it writes its second log line only when the answer holds a record. *)
Theorem routing_functions_make_one_request (w : W) (text : string) :
  trace_of respond (route_calendar_request client text) w =
  Obs (logger_info "Routing Calendar Request") tt
  :: Obs (chat_completions_parse client
            (prompt "Determine if this is a request to create a new calendar event or modify an existing one."
                    text)
            CalendarRequestType_class)
         (classification client respond w text)
  :: match first_parsed (classification client respond w text) with
     | inr result =>
         [ Obs (logger_info ("Request routed as: " +:+ literal_str (request_type result)
                             +:+ " with confidence: "
                             +:+ float_repr (confidence_score result))) tt ]
     | inl _ => []
     end /\
  trace_of respond (handle_new_event client text) w =
  Obs (logger_info "Processing new event request") tt
  :: Obs (chat_completions_parse client
            (prompt "Extract details for creating a new calendar event." text)
            NewEventDetails_class)
         (new_event_extraction client respond w text)
  :: match first_parsed (new_event_extraction client respond w text) with
     | inr details =>
         [ Obs (logger_info ("New event: "
                             +:+ model_dump_json NewEventDetails_class details)) tt ]
     | inl _ => []
     end /\
  trace_of respond (handle_modify_event client text) w =
  Obs (logger_info "Processing event modification request") tt
  :: Obs (chat_completions_parse client
            (prompt "Extract details for modifying an existing calendar event" text)
            ModifyEventDetails_class)
         (modify_event_extraction client respond w text)
  :: match first_parsed (modify_event_extraction client respond w text) with
     | inr details =>
         [ Obs (logger_info ("Modified event: "
                             +:+ model_dump_json ModifyEventDetails_class details)) tt ]
     | inl _ => []
     end.
Proof.
  repeat split; to_the_call;
    destruct (answer _ _ _) as [e|[[|[[[result|]]] rest]]];
    to_the_end; unit_answers; reflexivity.
Qed.

(** X12: the text of the module ends with the definitions: loading it
    configures the logger and builds the client from OPENAI_API_KEY, and
    makes no request and writes no log line; without the key it raises. *)
Theorem routing_script_builds_the_client (w : W) :
  let w1 :=
    after respond (logging_basicConfig "INFO" "%(asctime)s - %(levelname)s - %(message)s"
                                       "%Y-%m-%d %H:%M:%S") w in
  forallb (fun o => negb (@is_log_or_parse o)) (trace_of respond script w) = true /\
  result_of respond script w =
  match answer respond (os_getenv "OPENAI_API_KEY") w1 with
  | Some key => inr {| openai.api_key := key |}
  | None =>
      match answer respond (os_getenv "OPENAI_API_KEY")
                   (after respond (os_getenv "OPENAI_API_KEY") w1) with
      | Some key => inr {| openai.api_key := key |}
      | None => inl OpenAIError
      end
  end.
Proof.
  unfold trace_of, result_of, script, trigger. cbn [bind]. rewrite !run_vis. cbv zeta.
  destruct (answer respond (os_getenv _) _) as [key|]; cbn -[run]; [split; reflexivity|].
  rewrite run_vis. destruct (answer respond (os_getenv _) _) as [key|]; split; reflexivity.
Qed.

End routing_more_facts.

(** X13: the duration of the extraction result reaches no part of the
    response of [handle_new_event]: two runs whose extraction results
    agree on name, date and participants return the same response. *)
Theorem handle_new_event_ignores_duration
    {pydantic : routing.Pydantic} (client : openai.OpenAI)
    (W1 W2 : Type)
    (respond1 : forall X : Type, routing.call X -> W1 -> X * W1)
    (respond2 : forall X : Type, routing.call X -> W2 -> X * W2)
    (w1 : W1) (w2 : W2) (description1 description2 : string)
    (details1 details2 : routing.NewEventDetails) :
  first_parsed (new_event_extraction client respond1 w1 description1) = inr details1 ->
  first_parsed (new_event_extraction client respond2 w2 description2) = inr details2 ->
  routing.name details1 = routing.name details2 ->
  routing.date details1 = routing.date details2 ->
  routing.participants details1 = routing.participants details2 ->
  result_of respond1 (routing.handle_new_event client description1) w1 =
  result_of respond2 (routing.handle_new_event client description2) w2.
Proof.
  intros He1 He2 Hname Hdate Hparticipants.
  rewrite !result_handle_new_event, He1, He2, Hname, Hdate, Hparticipants. reflexivity.
Qed.

(** X14: the response of [handle_modify_event] tells the event apart: two
    runs with extraction results return the same response exactly when
    the two results have the same event_identifier. *)
Theorem handle_modify_event_response_tells_identifier
    {pydantic : routing.Pydantic} (client : openai.OpenAI)
    (W1 W2 : Type)
    (respond1 : forall X : Type, routing.call X -> W1 -> X * W1)
    (respond2 : forall X : Type, routing.call X -> W2 -> X * W2)
    (w1 : W1) (w2 : W2) (description1 description2 : string)
    (details1 details2 : routing.ModifyEventDetails) :
  first_parsed (modify_event_extraction client respond1 w1 description1) = inr details1 ->
  first_parsed (modify_event_extraction client respond2 w2 description2) = inr details2 ->
  result_of respond1 (routing.handle_modify_event client description1) w1 =
  result_of respond2 (routing.handle_modify_event client description2) w2
  <-> routing.event_identifier details1 = routing.event_identifier details2.
Proof.
  intros He1 He2. rewrite !result_handle_modify_event, He1, He2. split.
  - intros [= _ Hlink]. exact (append_cancel_l Hlink).
  - intros ->. reflexivity.
Qed.

Section routing_more_tests.
Import routing routing_mock routing_mock_more.
#[local] Existing Instance test_runtime.
#[local] Existing Instance test_pydantic.

Lemma handle_new_event_ignores_duration_witness :
  duration_minutes team_sync <> duration_minutes long_team_sync /\
  result_of (respond (with_new_details team_sync))
            (handle_new_event client "Team sync with Alice and Bob") tt =
  result_of (respond (with_new_details long_team_sync))
            (handle_new_event client "A long team sync with Alice and Bob") tt.
Proof.
  split; [discriminate|].
  apply (@handle_new_event_ignores_duration test_pydantic client unit unit
           (respond (with_new_details team_sync)) (respond (with_new_details long_team_sync))
           tt tt "Team sync with Alice and Bob" "A long team sync with Alice and Bob"
           team_sync long_team_sync); reflexivity.
Defined.

Lemma handle_modify_event_response_tells_identifier_witness :
  result_of (respond (classifies_as modify_event move_team_sync))
            (handle_modify_event client "Move the team sync to Saturday") tt =
  result_of (respond (classifies_as modify_event rename_team_sync))
            (handle_modify_event client "Call the team sync Weekly Sync, without Bob") tt
  <-> event_identifier move_team_sync = event_identifier rename_team_sync.
Proof.
  apply (@handle_modify_event_response_tells_identifier test_pydantic client unit unit
           (respond (classifies_as modify_event move_team_sync))
           (respond (classifies_as modify_event rename_team_sync)) tt tt
           "Move the team sync to Saturday" "Call the team sync Weekly Sync, without Bob"
           move_team_sync rename_team_sync); reflexivity.
Defined.

End routing_more_tests.
